(** * Blog test-suite helpers: API client facade and test-data builders

    A shallow embedding of [utils/api_client.py] and [utils/data_builder.py].

    - Python values that travel in request and response bodies are the
      inductive [value]; a [dict] is an association list in insertion order
      (the order in which Python prints it to the log).
    - The HTTP session ([requests.Session]) is a record of a case-insensitive
      header map and a cookie jar; the network is a function handed to the
      client, which either raises or answers with a response.
    - The module-level [fake = Faker()] generator is a state that the builder
      methods thread through. *)

From Stdlib Require Import ZArith QArith_base String Ascii List Bool Lia.
From stdpp Require Import base option gmap strings.
Import ListNotations.

Local Open Scope string_scope.
Local Open Scope Z_scope.
Local Open Scope list_scope.

(** ** Python values and the string helpers the sources rely on *)

Module Py.

(** JSON-shaped Python values.  Floats do not occur in the bodies built by
    this repository and are left out. *)
#[local] Unset Elimination Schemes.
Inductive value : Type :=
| VNone
| VBool (b : bool)
| VInt (n : Z)
| VStr (s : string)
| VList (items : list value)
| VDict (entries : list (string * value)).
#[local] Set Elimination Schemes.

(** [isinstance(v, dict)] *)
Definition is_dict (v : value) : bool :=
  match v with VDict _ => true | _ => false end.

(** Truth value of a Python object in an [if]. *)
Definition truthy (v : value) : bool :=
  match v with
  | VNone => false
  | VBool b => b
  | VInt n => negb (n =? 0)
  | VStr s => negb (String.eqb s "")
  | VList l => match l with [] => false | _ => true end
  | VDict d => match d with [] => false | _ => true end
  end.

(** [d.get(k)]: the value stored under [k], if any. *)
Fixpoint dict_get (k : string) (d : list (string * value)) : option value :=
  match d with
  | [] => None
  | (k', v) :: rest => if String.eqb k k' then Some v else dict_get k rest
  end.

(** [d[k] = v] on a dict: overwrite in place, or append a new entry. *)
Fixpoint dict_set {V : Type} (k : string) (v : V) (d : list (string * V))
  : list (string * V) :=
  match d with
  | [] => [(k, v)]
  | (k', v') :: rest =>
      if String.eqb k k' then (k', v) :: rest else (k', v') :: dict_set k v rest
  end.

Definition keys (d : list (string * value)) : list string := map fst d.

(** [str.lower()] on ASCII text: only [A]..[Z] change.  On a string with a
    character outside ASCII Python's result can differ (the Kelvin sign
    lowers to [k]); statements that rest on a key not being sensitive are
    made for [is_ascii] keys. *)
Definition lower_ascii (c : ascii) : ascii :=
  let n := N_of_ascii c in
  if ((65 <=? n) && (n <=? 90))%N then ascii_of_N (n + 32) else c.

Fixpoint lower (s : string) : string :=
  match s with
  | EmptyString => EmptyString
  | String c rest => String (lower_ascii c) (lower rest)
  end.

(** [needle in hay] for two strings: substring test. *)
Fixpoint contains (needle hay : string) : bool :=
  String.prefix needle hay
  || match hay with
     | EmptyString => false
     | String _ rest => contains needle rest
     end.

(** [s.rstrip(c)] for a single character [c]. *)
Fixpoint rstrip (c : ascii) (s : string) : string :=
  match s with
  | EmptyString => EmptyString
  | String a rest =>
      match rstrip c rest with
      | EmptyString => if Ascii.eqb a c then EmptyString else String a EmptyString
      | r => String a r
      end
  end.

(** [s.lstrip(c)] for a single character [c]. *)
Fixpoint lstrip (c : ascii) (s : string) : string :=
  match s with
  | EmptyString => EmptyString
  | String a rest => if Ascii.eqb a c then lstrip c rest else s
  end.

(** Walk a path of keys through nested dicts. *)
Fixpoint get_at (path : list string) (v : value) : option value :=
  match path with
  | [] => Some v
  | k :: rest =>
      match v with
      | VDict d =>
          match dict_get k d with
          | Some v' => get_at rest v'
          | None => None
          end
      | _ => None
      end
  end.



(** [str.upper()] on ASCII text: only [a]..[z] change; statements about the
    result are made for [is_ascii] strings. *)
Definition upper_ascii (c : ascii) : ascii :=
  let n := N_of_ascii c in
  if ((97 <=? n) && (n <=? 122))%N then ascii_of_N (n - 32) else c.

Fixpoint upper (s : string) : string :=
  match s with
  | EmptyString => EmptyString
  | String c rest => String (upper_ascii c) (upper rest)
  end.

(** The string has ASCII characters only: every byte is below 128. *)
Fixpoint is_ascii (s : string) : bool :=
  match s with
  | EmptyString => true
  | String c rest => (N_of_ascii c <? 128)%N && is_ascii rest
  end.

(** An [Optional[int]] argument as a Python value. *)
Definition optional_int (o : option Z) : value :=
  match o with Some n => VInt n | None => VNone end.

End Py.

(** ** utils/data_builder.py *)

Module DataBuilder.
Import Py.

(** The [faker] library behind the module-level [fake = Faker()]: each call
    draws from the generator state and advances it. *)
Class Faker := {
  rng : Type;
  (** [fake.paragraph()] *)
  paragraph : rng -> string * rng;
  (** [fake.image_url()] *)
  image_url : rng -> string * rng;
  (** [fake.sentence(nb_words=n)] *)
  sentence : Z -> rng -> string * rng
}.

(** What the library documents about its providers: a paragraph has at least
    one sentence, an image URL is an [https://] placeholder address, and a
    sentence has at least one word before its final dot. *)
Class FakerContract (F : Faker) := {
  paragraph_nonempty : forall g, fst (paragraph g) <> "";
  image_url_shape : forall g, String.prefix "https://" (fst (image_url g)) = true;
  sentence_has_word : forall n g, rstrip "." (fst (sentence n g)) <> ""
}.

(** Computations that draw random data. *)
Definition Gen `{Faker} (A : Type) : Type := rng -> A * rng.

Definition ret `{Faker} {A} (a : A) : Gen A := fun g => (a, g).

Definition bind `{Faker} {A B} (c : Gen A) (k : A -> Gen B) : Gen B :=
  fun g => let (a, g') := c g in k a g'.

Notation "'draw' x <- c 'then' k" := (bind c (fun x => k))
  (at level 10, x name, c at level 100, k at level 200).

Module BlogPostType.
Inductive t := PERSONAL | COMMUNITY | REPOST.
Definition value (e : t) : string :=
  match e with
  | PERSONAL => "PERSONAL"
  | COMMUNITY => "COMMUNITY"
  | REPOST => "REPOST"
  end.
End BlogPostType.

Module BlockType.
Inductive t := TEXT | IMAGE | VIDEO | CODE | QUOTE.
Definition value (e : t) : string :=
  match e with
  | TEXT => "TEXT"
  | IMAGE => "IMAGE"
  | VIDEO => "VIDEO"
  | CODE => "CODE"
  | QUOTE => "QUOTE"
  end.
End BlockType.

(** Truth value of an [Optional[str]], [Optional[int]] and list field. *)
Definition str_set (o : option string) : bool :=
  match o with Some s => negb (String.eqb s "") | None => false end.

Definition int_set (o : option Z) : bool :=
  match o with Some n => negb (n =? 0) | None => false end.

Definition list_set {A} (l : list A) : bool :=
  match l with [] => false | _ => true end.

Module BlockData.
Record t := {
  type : string;
  content : string;
  x : Z;
  y : Z;
  width : Z;
  height : Z;
  image_caption : option string;
  object_fit : option string
}.

Definition to_dict (self : t) : Py.value :=
  let result :=
    [("type", VStr (type self)); ("content", VStr (content self));
     ("x", VInt (x self)); ("y", VInt (y self));
     ("width", VInt (width self)); ("height", VInt (height self))] in
  let result :=
    if str_set (image_caption self)
    then dict_set "imageCaption" (VStr (default "" (image_caption self))) result
    else result in
  let result :=
    if str_set (object_fit self)
    then dict_set "objectFit" (VStr (default "" (object_fit self))) result
    else result in
  VDict result.
End BlockData.

Module PostData.
Record t := {
  title : string;
  type : string;
  author_id : Z;
  blocks : list Py.value;
  community_id : option Z;
  original_post_id : option Z;
  hashtag_ids : list Z;
  thumbnail_url : option string
}.

Definition to_dict (self : t) : list (string * Py.value) :=
  let data :=
    [("title", VStr (title self)); ("type", VStr (type self));
     ("authorId", VInt (author_id self)); ("blocks", VList (blocks self))] in
  let data :=
    if int_set (community_id self)
    then dict_set "communityId" (VInt (default 0 (community_id self))) data
    else data in
  let data :=
    if int_set (original_post_id self)
    then dict_set "originalPostId" (VInt (default 0 (original_post_id self))) data
    else data in
  let data :=
    if list_set (hashtag_ids self)
    then dict_set "hashtagIds" (VList (map VInt (hashtag_ids self))) data
    else data in
  let data :=
    if str_set (thumbnail_url self)
    then dict_set "thumbnailUrl" (VStr (default "" (thumbnail_url self))) data
    else data in
  data.
End PostData.

Module BlockBuilder.
Section methods.
Context `{Faker}.

(** The builder is its draft [_data]. *)
Definition t := BlockData.t.

Definition init : t :=
  {| BlockData.type := BlockType.value BlockType.TEXT;
     BlockData.content := "";
     BlockData.x := 0; BlockData.y := 0;
     BlockData.width := 12; BlockData.height := 100;
     BlockData.image_caption := None; BlockData.object_fit := None |}.

Definition set_type (ty : string) (self : t) : t :=
  {| BlockData.type := ty;
     BlockData.content := BlockData.content self;
     BlockData.x := BlockData.x self; BlockData.y := BlockData.y self;
     BlockData.width := BlockData.width self;
     BlockData.height := BlockData.height self;
     BlockData.image_caption := BlockData.image_caption self;
     BlockData.object_fit := BlockData.object_fit self |}.

Definition as_text : t -> t := set_type (BlockType.value BlockType.TEXT).
Definition as_image : t -> t := set_type (BlockType.value BlockType.IMAGE).
Definition as_code : t -> t := set_type (BlockType.value BlockType.CODE).
Definition as_quote : t -> t := set_type (BlockType.value BlockType.QUOTE).

Definition with_content (content : string) (self : t) : t :=
  {| BlockData.type := BlockData.type self;
     BlockData.content := content;
     BlockData.x := BlockData.x self; BlockData.y := BlockData.y self;
     BlockData.width := BlockData.width self;
     BlockData.height := BlockData.height self;
     BlockData.image_caption := BlockData.image_caption self;
     BlockData.object_fit := BlockData.object_fit self |}.

Definition with_random_text (self : t) : Gen t :=
  draw text <- paragraph then ret (with_content text self).

Definition with_random_image_url (self : t) : Gen t :=
  draw url <- image_url then ret (with_content url self).

Definition at_position (x y : Z) (self : t) : t :=
  {| BlockData.type := BlockData.type self;
     BlockData.content := BlockData.content self;
     BlockData.x := x; BlockData.y := y;
     BlockData.width := BlockData.width self;
     BlockData.height := BlockData.height self;
     BlockData.image_caption := BlockData.image_caption self;
     BlockData.object_fit := BlockData.object_fit self |}.

Definition with_size (width height : Z) (self : t) : t :=
  {| BlockData.type := BlockData.type self;
     BlockData.content := BlockData.content self;
     BlockData.x := BlockData.x self; BlockData.y := BlockData.y self;
     BlockData.width := width; BlockData.height := height;
     BlockData.image_caption := BlockData.image_caption self;
     BlockData.object_fit := BlockData.object_fit self |}.

(** The draft as [build()] leaves it: empty content is generated for TEXT,
    IMAGE and CODE; the [if]/[elif] chain has no branch for other types. *)
Definition fill (self : t) : Gen t :=
  if String.eqb (BlockData.content self) "" then
    if String.eqb (BlockData.type self) (BlockType.value BlockType.TEXT) then
      draw text <- paragraph then ret (with_content text self)
    else if String.eqb (BlockData.type self) (BlockType.value BlockType.IMAGE) then
      draw url <- image_url then ret (with_content url self)
    else if String.eqb (BlockData.type self) (BlockType.value BlockType.CODE) then
      ret (with_content "print('Hello World')" self)
    else ret self
  else ret self.

Definition build (self : t) : Gen Py.value :=
  draw self' <- fill self then ret (BlockData.to_dict self').

End methods.
End BlockBuilder.

Module PostBuilder.
Section methods.
Context `{Faker}.

(** The builder is its draft [_data]. *)
Definition t := PostData.t.

Definition init : t :=
  {| PostData.title := "";
     PostData.type := BlogPostType.value BlogPostType.PERSONAL;
     PostData.author_id := 0;
     PostData.blocks := [];
     PostData.community_id := None;
     PostData.original_post_id := None;
     PostData.hashtag_ids := [];
     PostData.thumbnail_url := None |}.

Definition with_author (author_id : Z) (self : t) : t :=
  {| PostData.title := PostData.title self;
     PostData.type := PostData.type self;
     PostData.author_id := author_id;
     PostData.blocks := PostData.blocks self;
     PostData.community_id := PostData.community_id self;
     PostData.original_post_id := PostData.original_post_id self;
     PostData.hashtag_ids := PostData.hashtag_ids self;
     PostData.thumbnail_url := PostData.thumbnail_url self |}.

Definition with_title (title : string) (self : t) : t :=
  {| PostData.title := title;
     PostData.type := PostData.type self;
     PostData.author_id := PostData.author_id self;
     PostData.blocks := PostData.blocks self;
     PostData.community_id := PostData.community_id self;
     PostData.original_post_id := PostData.original_post_id self;
     PostData.hashtag_ids := PostData.hashtag_ids self;
     PostData.thumbnail_url := PostData.thumbnail_url self |}.

Definition with_random_title (self : t) : Gen t :=
  draw s <- sentence 6 then ret (with_title (rstrip "." s) self).

Definition set_type (ty : string) (self : t) : t :=
  {| PostData.title := PostData.title self;
     PostData.type := ty;
     PostData.author_id := PostData.author_id self;
     PostData.blocks := PostData.blocks self;
     PostData.community_id := PostData.community_id self;
     PostData.original_post_id := PostData.original_post_id self;
     PostData.hashtag_ids := PostData.hashtag_ids self;
     PostData.thumbnail_url := PostData.thumbnail_url self |}.

Definition as_personal (self : t) : t :=
  set_type (BlogPostType.value BlogPostType.PERSONAL) self.

Definition as_community (community_id : Z) (self : t) : t :=
  let self := set_type (BlogPostType.value BlogPostType.COMMUNITY) self in
  {| PostData.title := PostData.title self;
     PostData.type := PostData.type self;
     PostData.author_id := PostData.author_id self;
     PostData.blocks := PostData.blocks self;
     PostData.community_id := Some community_id;
     PostData.original_post_id := PostData.original_post_id self;
     PostData.hashtag_ids := PostData.hashtag_ids self;
     PostData.thumbnail_url := PostData.thumbnail_url self |}.

Definition as_repost (original_post_id : Z) (self : t) : t :=
  let self := set_type (BlogPostType.value BlogPostType.REPOST) self in
  {| PostData.title := PostData.title self;
     PostData.type := PostData.type self;
     PostData.author_id := PostData.author_id self;
     PostData.blocks := PostData.blocks self;
     PostData.community_id := PostData.community_id self;
     PostData.original_post_id := Some original_post_id;
     PostData.hashtag_ids := PostData.hashtag_ids self;
     PostData.thumbnail_url := PostData.thumbnail_url self |}.

(** [self._data.blocks.append(block)] *)
Definition add_block (block : Py.value) (self : t) : t :=
  {| PostData.title := PostData.title self;
     PostData.type := PostData.type self;
     PostData.author_id := PostData.author_id self;
     PostData.blocks := PostData.blocks self ++ [block];
     PostData.community_id := PostData.community_id self;
     PostData.original_post_id := PostData.original_post_id self;
     PostData.hashtag_ids := PostData.hashtag_ids self;
     PostData.thumbnail_url := PostData.thumbnail_url self |}.

(** [len(self._data.blocks) * 100] *)
Definition next_y (self : t) : Z :=
  Z.of_nat (length (PostData.blocks self)) * 100.

Definition add_text_block (content : string) (y : option Z) (self : t) : Gen t :=
  let block_y := match y with Some y => y | None => next_y self end in
  draw block <-
    BlockBuilder.build
      (BlockBuilder.with_size 12 100
         (BlockBuilder.at_position 0 block_y
            (BlockBuilder.with_content content
               (BlockBuilder.as_text BlockBuilder.init))))
  then ret (add_block block self).

(** One pass of the loop body of [add_random_text_blocks]. *)
Definition add_random_text_block (self : t) : Gen t :=
  let block_y := next_y self in
  draw b <- BlockBuilder.with_random_text (BlockBuilder.as_text BlockBuilder.init)
  then draw block <-
    BlockBuilder.build
      (BlockBuilder.with_size 12 100 (BlockBuilder.at_position 0 block_y b))
  then ret (add_block block self).

(** [for i in range(count)]: [n] passes. *)
Fixpoint repeat_blocks (n : nat) (self : t) : Gen t :=
  match n with
  | O => ret self
  | S n' => draw self' <- add_random_text_block self then repeat_blocks n' self'
  end.

(** [range(count)] is empty for a count below one. *)
Definition add_random_text_blocks (count : Z) (self : t) : Gen t :=
  repeat_blocks (Z.to_nat count) self.

Definition add_image_block (image_url : string) (y : option Z) (self : t) : Gen t :=
  let block_y := match y with Some y => y | None => next_y self end in
  draw block <-
    BlockBuilder.build
      (BlockBuilder.with_size 12 200
         (BlockBuilder.at_position 0 block_y
            (BlockBuilder.with_content image_url
               (BlockBuilder.as_image BlockBuilder.init))))
  then ret (add_block block self).

Definition with_hashtags (hashtag_ids : list Z) (self : t) : t :=
  {| PostData.title := PostData.title self;
     PostData.type := PostData.type self;
     PostData.author_id := PostData.author_id self;
     PostData.blocks := PostData.blocks self;
     PostData.community_id := PostData.community_id self;
     PostData.original_post_id := PostData.original_post_id self;
     PostData.hashtag_ids := hashtag_ids;
     PostData.thumbnail_url := PostData.thumbnail_url self |}.

Definition with_thumbnail (url : string) (self : t) : t :=
  {| PostData.title := PostData.title self;
     PostData.type := PostData.type self;
     PostData.author_id := PostData.author_id self;
     PostData.blocks := PostData.blocks self;
     PostData.community_id := PostData.community_id self;
     PostData.original_post_id := PostData.original_post_id self;
     PostData.hashtag_ids := PostData.hashtag_ids self;
     PostData.thumbnail_url := Some url |}.

Definition build (self : t) : Gen PostData.t :=
  draw self <-
    (if String.eqb (PostData.title self) ""
     then draw s <- sentence 6 then ret (with_title (rstrip "." s) self)
     else ret self)
  then draw self <-
    (if list_set (PostData.blocks self)
     then ret self
     else add_random_text_blocks 1 self)
  then ret self.

(** The configuration methods a test can chain before [build()]. *)
Inductive call :=
| WithAuthor (author_id : Z)
| WithTitle (title : string)
| WithRandomTitle
| AsPersonal
| AsCommunity (community_id : Z)
| AsRepost (original_post_id : Z)
| AddBlock (block : Py.value)
| AddTextBlock (content : string) (y : option Z)
| AddRandomTextBlocks (count : Z)
| AddImageBlock (image_url : string) (y : option Z)
| WithHashtags (hashtag_ids : list Z)
| WithThumbnail (url : string).

Definition run_call (c : call) (self : t) : Gen t :=
  match c with
  | WithAuthor a => ret (with_author a self)
  | WithTitle s => ret (with_title s self)
  | WithRandomTitle => with_random_title self
  | AsPersonal => ret (as_personal self)
  | AsCommunity c => ret (as_community c self)
  | AsRepost o => ret (as_repost o self)
  | AddBlock b => ret (add_block b self)
  | AddTextBlock s y => add_text_block s y self
  | AddRandomTextBlocks n => add_random_text_blocks n self
  | AddImageBlock u y => add_image_block u y self
  | WithHashtags hs => ret (with_hashtags hs self)
  | WithThumbnail u => ret (with_thumbnail u self)
  end.

(** A chain [PostBuilder().c1().c2()...]. *)
Fixpoint run_calls (cs : list call) (self : t) : Gen t :=
  match cs with
  | [] => ret self
  | c :: rest => draw self' <- run_call c self then run_calls rest self'
  end.

End methods.
End PostBuilder.

Section helpers.
Context `{Faker}.

Definition create_quick_post (author_id : Z) (blocks_count : Z) : Gen PostData.t :=
  draw b <- PostBuilder.with_random_title (PostBuilder.with_author author_id PostBuilder.init)
  then draw b <- PostBuilder.add_random_text_blocks blocks_count b
  then PostBuilder.build b.

End helpers.

(** The providers behind [UserBuilder] and [CommentBuilder], and
    [random.randint]; they draw from the same generator state. *)
Class FakerProfile (F : Faker) := {
  (** [fake.email()] *)
  email : rng -> string * rng;
  (** [fake.name()] *)
  name : rng -> string * rng;
  (** [fake.text(max_nb_chars=n)] *)
  text : Z -> rng -> string * rng;
  (** [random.randint(a, b)] *)
  randint : Z -> Z -> rng -> Z * rng
}.

(** What the libraries document about these: an address and a name are not
    empty, a sentence is not empty, and [randint(a, b)] lies in [a..b]. *)
Class FakerProfileContract (F : Faker) (P : FakerProfile F) := {
  email_nonempty : forall g, fst (email g) <> "";
  name_nonempty : forall g, fst (name g) <> "";
  sentence_nonempty : forall n g, fst (sentence n g) <> "";
  randint_range : forall a b g, a <= b -> a <= fst (randint a b g) <= b
}.

Module UserData.
Record t := {
  email : string;
  name : string;
  password : string;
  bio : option string;
  gender : option string
}.

(** [{k: v for k, v in asdict(self).items() if v is not None}] *)
Definition to_dict (self : t) : list (string * Py.value) :=
  [("email", VStr (email self)); ("name", VStr (name self));
   ("password", VStr (password self))]
  ++ match bio self with Some b => [("bio", VStr b)] | None => [] end
  ++ match gender self with Some g => [("gender", VStr g)] | None => [] end.
End UserData.

Module CommentData.
Record t := {
  post_id : Z;
  commenter_id : Z;
  content : string;
  comment_type : string;
  parent_comment_id : option Z;
  reply_to_user_id : option Z;
  block_id : option Z
}.

Definition to_dict (self : t) : list (string * Py.value) :=
  let data :=
    [("postId", VInt (post_id self)); ("commenterId", VInt (commenter_id self));
     ("content", VStr (content self)); ("type", VStr (comment_type self))] in
  let data :=
    if int_set (parent_comment_id self)
    then dict_set "parentCommentId" (VInt (default 0 (parent_comment_id self))) data
    else data in
  let data :=
    if int_set (reply_to_user_id self)
    then dict_set "replyToUserId" (VInt (default 0 (reply_to_user_id self))) data
    else data in
  let data :=
    if int_set (block_id self) && String.eqb (comment_type self) "BLOCK"
    then dict_set "blockId" (VInt (default 0 (block_id self))) data
    else data in
  data.
End CommentData.

Module UserBuilder.
Section methods.
Context `{P : FakerProfile}.

(** The builder is its draft [_data]. *)
Definition t := UserData.t.

Definition init : t :=
  {| UserData.email := ""; UserData.name := "";
     UserData.password := "Test@12345";
     UserData.bio := None; UserData.gender := None |}.

Definition with_email (email : string) (self : t) : t :=
  {| UserData.email := email; UserData.name := UserData.name self;
     UserData.password := UserData.password self;
     UserData.bio := UserData.bio self; UserData.gender := UserData.gender self |}.

Definition with_random_email (self : t) : Gen t :=
  draw e <- email then ret (with_email e self).

Definition with_name (name : string) (self : t) : t :=
  {| UserData.email := UserData.email self; UserData.name := name;
     UserData.password := UserData.password self;
     UserData.bio := UserData.bio self; UserData.gender := UserData.gender self |}.

Definition with_random_name (self : t) : Gen t :=
  draw n <- name then ret (with_name n self).

Definition with_password (password : string) (self : t) : t :=
  {| UserData.email := UserData.email self; UserData.name := UserData.name self;
     UserData.password := password;
     UserData.bio := UserData.bio self; UserData.gender := UserData.gender self |}.

Definition with_bio (bio : string) (self : t) : t :=
  {| UserData.email := UserData.email self; UserData.name := UserData.name self;
     UserData.password := UserData.password self;
     UserData.bio := Some bio; UserData.gender := UserData.gender self |}.

Definition with_random_bio (self : t) : Gen t :=
  draw b <- text 200 then ret (with_bio b self).

Definition with_gender (gender : string) (self : t) : t :=
  {| UserData.email := UserData.email self; UserData.name := UserData.name self;
     UserData.password := UserData.password self;
     UserData.bio := UserData.bio self; UserData.gender := Some gender |}.

Definition as_male : t -> t := with_gender "male".
Definition as_female : t -> t := with_gender "female".

Definition build (self : t) : Gen UserData.t :=
  draw self <-
    (if String.eqb (UserData.email self) ""
     then draw e <- email then ret (with_email e self)
     else ret self)
  then draw self <-
    (if String.eqb (UserData.name self) ""
     then draw n <- name then ret (with_name n self)
     else ret self)
  then ret self.

End methods.
End UserBuilder.

Module CommentBuilder.
Section methods.
Context `{P : FakerProfile}.

(** The builder is its draft [_data]. *)
Definition t := CommentData.t.

Definition init : t :=
  {| CommentData.post_id := 0; CommentData.commenter_id := 0;
     CommentData.content := ""; CommentData.comment_type := "POST";
     CommentData.parent_comment_id := None;
     CommentData.reply_to_user_id := None;
     CommentData.block_id := None |}.

Definition on_post (post_id : Z) (self : t) : t :=
  {| CommentData.post_id := post_id;
     CommentData.commenter_id := CommentData.commenter_id self;
     CommentData.content := CommentData.content self;
     CommentData.comment_type := CommentData.comment_type self;
     CommentData.parent_comment_id := CommentData.parent_comment_id self;
     CommentData.reply_to_user_id := CommentData.reply_to_user_id self;
     CommentData.block_id := CommentData.block_id self |}.

Definition by_commenter (commenter_id : Z) (self : t) : t :=
  {| CommentData.post_id := CommentData.post_id self;
     CommentData.commenter_id := commenter_id;
     CommentData.content := CommentData.content self;
     CommentData.comment_type := CommentData.comment_type self;
     CommentData.parent_comment_id := CommentData.parent_comment_id self;
     CommentData.reply_to_user_id := CommentData.reply_to_user_id self;
     CommentData.block_id := CommentData.block_id self |}.

(** Alias of [by_commenter]. *)
Definition by_author (author_id : Z) (self : t) : t :=
  {| CommentData.post_id := CommentData.post_id self;
     CommentData.commenter_id := author_id;
     CommentData.content := CommentData.content self;
     CommentData.comment_type := CommentData.comment_type self;
     CommentData.parent_comment_id := CommentData.parent_comment_id self;
     CommentData.reply_to_user_id := CommentData.reply_to_user_id self;
     CommentData.block_id := CommentData.block_id self |}.

Definition with_content (content : string) (self : t) : t :=
  {| CommentData.post_id := CommentData.post_id self;
     CommentData.commenter_id := CommentData.commenter_id self;
     CommentData.content := content;
     CommentData.comment_type := CommentData.comment_type self;
     CommentData.parent_comment_id := CommentData.parent_comment_id self;
     CommentData.reply_to_user_id := CommentData.reply_to_user_id self;
     CommentData.block_id := CommentData.block_id self |}.

(** [fake.sentence(nb_words=random.randint(5, 15))] *)
Definition with_random_content (self : t) : Gen t :=
  draw n <- randint 5 15
  then draw s <- sentence n
  then ret (with_content s self).

Definition as_reply_to (parent_comment_id : Z) (reply_to_user_id : option Z)
    (self : t) : t :=
  {| CommentData.post_id := CommentData.post_id self;
     CommentData.commenter_id := CommentData.commenter_id self;
     CommentData.content := CommentData.content self;
     CommentData.comment_type := CommentData.comment_type self;
     CommentData.parent_comment_id := Some parent_comment_id;
     CommentData.reply_to_user_id :=
       (if int_set reply_to_user_id then reply_to_user_id
        else CommentData.reply_to_user_id self);
     CommentData.block_id := CommentData.block_id self |}.

Definition build (self : t) : Gen CommentData.t :=
  if String.eqb (CommentData.content self) ""
  then draw s <- sentence 6 then ret (with_content s self)
  else ret self.

End methods.
End CommentBuilder.

Section more_helpers.
Context `{P : FakerProfile}.

Definition create_quick_user : Gen UserData.t :=
  draw b <- UserBuilder.with_random_email UserBuilder.init
  then draw b <- UserBuilder.with_random_name b
  then UserBuilder.build b.

Definition create_quick_comment (post_id author_id : Z) : Gen CommentData.t :=
  draw b <-
    CommentBuilder.with_random_content
      (CommentBuilder.by_author author_id
         (CommentBuilder.on_post post_id CommentBuilder.init))
  then CommentBuilder.build b.

End more_helpers.

End DataBuilder.

(** ** utils/api_client.py *)

Module ApiClient.
Import Py.

(** [requests.structures.CaseInsensitiveDict]: entries are stored under the
    lower-cased header name, next to the spelling last used to set them. *)
Abbreviation Headers := (gmap string (string * string)).

Definition headers_set (name val : string) (h : Headers) : Headers :=
  <[lower name := (name, val)]> h.

Definition headers_get (name : string) (h : Headers) : option string :=
  snd <$> h !! lower name.

(** [headers.pop(name, None)] *)
Definition headers_pop (name : string) (h : Headers) : Headers :=
  delete (lower name) h.

(** [headers.update(mapping)] *)
Definition headers_update (items : list (string * string)) (h : Headers) : Headers :=
  fold_left (fun acc kv => headers_set (fst kv) (snd kv) acc) items h.

Record Cookie := {
  cookie_name : string;
  cookie_value : string;
  cookie_domain : string;
  cookie_path : string
}.

(** [requests.Session]: default headers and the cookie jar. *)
Record Session := {
  headers : Headers;
  cookies : list Cookie
}.

Module Response.
(** [requests.Response]; [json_body = None] when [response.json()] raises. *)
Record t := {
  status_code : Z;
  text : string;
  json_body : option Py.value
}.

(** [Response.ok]: [raise_for_status()] raises exactly for a status from 400
    to 599, and [ok] is [True] when it does not raise. *)
Definition ok (r : t) : bool :=
  negb ((400 <=? status_code r) && (status_code r <? 600)).
End Response.

Module APIResponse.
Record t := {
  status_code : Z;
  data : Py.value;
  success : bool;
  raw_response : Response.t
}.

(** The [json] property: the body when it is a dict, else [{}]. *)
Definition json (self : t) : list (string * Py.value) :=
  match data self with
  | VDict d => d
  | _ => []
  end.
End APIResponse.

Inductive Exception :=
| TransportError (msg : string)
| AttributeError (msg : string).

Inductive outcome (A : Type) :=
| Returns (a : A)
| Raises (e : Exception).
Arguments Returns {A} a.
Arguments Raises {A} e.

(** Keyword arguments forwarded to [session.request]; the timeout is in
    seconds. *)
Record Kwargs := {
  kw_json : option Py.value;
  kw_params : option (list (string * Py.value));
  kw_timeout : option Q
}.

Definition no_kwargs : Kwargs :=
  {| kw_json := None; kw_params := None; kw_timeout := None |}.

Definition with_json (body : Py.value) : Kwargs :=
  {| kw_json := Some body; kw_params := None; kw_timeout := None |}.

Record Request := {
  req_method : string;
  req_url : string;
  req_kwargs : Kwargs
}.

(** What the logger receives; a formatted value is kept as the value. *)
Inductive LogRecord :=
| LogRequest (method url : string)
| LogRequestBody (log_body : Py.value)
| LogResponse (status : Z)
| LogResponseData (log_data : Py.value)
| LogRequestFailed (e : Exception)
| LogLoggedIn (who : string)
| LogTokenSet
| LogSessionCleared
| LogInitialized (base_url : string).

(** The parts of the [config.settings] module that the client reads. *)
Record Settings := {
  default_headers : list (string * string);
  urls_base_api : string;
  timeouts_API_REQUEST : Z
}.

(** The world outside the client: the settings module, the backend reached
    through [session.request], and Python's formatting of a value inside an
    f-string.  A call may raise, and it may store cookies in the session jar;
    it never touches the session's default headers. *)
Class Platform := {
  settings : Settings;
  Server : Type;
  session_defaults : Headers;
  transport : Server -> Session -> Request -> outcome Response.t * list Cookie * Server;
  py_format : Py.value -> string
}.

Section client.
Context `{Platform}.

Record BaseAPIClient := {
  base_url : string;
  session : Session
}.

Record World := {
  client : BaseAPIClient;
  server : Server;
  log_sink : list LogRecord
}.

(** Methods run against the world and may raise. *)
Definition M (A : Type) : Type := World -> outcome A * World.

Definition ret {A} (a : A) : M A := fun w => (Returns a, w).

Definition bind {A B} (c : M A) (k : A -> M B) : M B :=
  fun w =>
    match c w with
    | (Returns a, w') => k a w'
    | (Raises e, w') => (Raises e, w')
    end.

Definition raise {A} (e : Exception) : M A := fun w => (Raises e, w).

Definition logger (r : LogRecord) : M unit :=
  fun w =>
    (Returns tt,
     {| client := client w; server := server w; log_sink := log_sink w ++ [r] |}).

Definition get_headers : M Headers :=
  fun w => (Returns (headers (session (client w))), w).

Definition set_session (s : Session) : M unit :=
  fun w =>
    (Returns tt,
     {| client := {| base_url := base_url (client w); session := s |};
        server := server w; log_sink := log_sink w |}).

Definition get_client : M BaseAPIClient := fun w => (Returns (client w), w).

Definition set_headers (h : Headers) : M unit :=
  fun w =>
    set_session {| headers := h; cookies := cookies (session (client w)) |} w.

Definition set_cookies (jar : list Cookie) : M unit :=
  fun w =>
    set_session {| headers := headers (session (client w)); cookies := jar |} w.

(** [self.session.request(method, url, **kwargs)] *)
Definition session_request (rq : Request) : M Response.t :=
  fun w =>
    match transport (server w) (session (client w)) rq with
    | (res, jar, srv) =>
        (res,
         {| client :=
              {| base_url := base_url (client w);
                 session := {| headers := headers (session (client w));
                               cookies := jar |} |};
            server := srv; log_sink := log_sink w |})
    end.

(** [try: c except Exception as e: handler(e); raise] *)
Definition try_reraise {A} (c : M A) (handler : Exception -> M unit) : M A :=
  fun w =>
    match c w with
    | (Returns a, w') => (Returns a, w')
    | (Raises e, w') =>
        match handler e w' with
        | (Returns _, w'') => (Raises e, w'')
        | (Raises e', w'') => (Raises e', w'')
        end
    end.

End client.

Notation "'do' x <- c 'then' k" := (bind c (fun x => k))
  (at level 10, x name, c at level 100, k at level 200).
Notation "'run' c 'then' k" := (bind c (fun _ => k))
  (at level 10, c at level 100, k at level 200).

Definition MASK : string := "********".

Definition sensitive_keys : list string :=
  ["password"; "secret"; "token"; "accessToken"; "refreshToken";
   "key"; "credential"; "pass"; "pwd"; "api_key"; "apiKey"].

(** [any(sensitive in key.lower() for sensitive in sensitive_keys)] *)
Definition is_sensitive (key : string) : bool :=
  existsb (fun sensitive => contains sensitive (lower key)) sensitive_keys.

(** Mask sensitive fields in request and response data for logging: a copy
    of the dict in which every entry under a sensitive key holds the mask and
    every other dict-valued entry is masked in turn; anything that is not a
    dict is returned as it is.  Keys are [str], as in JSON objects. *)
Fixpoint _mask_sensitive_data (data : Py.value) : Py.value :=
  match data with
  | VDict d =>
      VDict
        (map (fun kv =>
                match kv with
                | (key, v) =>
                    if is_sensitive key then (key, VStr MASK)
                    else if is_dict v then (key, _mask_sensitive_data v)
                    else (key, v)
                end) d)
  | _ => data
  end.

(** The loop body of [_mask_sensitive_data], for one entry of the copy. *)
Definition mask_entry (kv : string * value) : string * value :=
  match kv with
  | (key, v) =>
      if is_sensitive key then (key, VStr MASK)
      else if is_dict v then (key, _mask_sensitive_data v)
      else (key, v)
  end.


Section methods.
Context `{Platform}.

(** [kwargs.setdefault('timeout', settings.timeouts.API_REQUEST / 1000)] *)
Definition setdefault_timeout (kwargs : Kwargs) : Kwargs :=
  match kw_timeout kwargs with
  | Some _ => kwargs
  | None =>
      {| kw_json := kw_json kwargs;
         kw_params := kw_params kwargs;
         kw_timeout := Some (Qmake (timeouts_API_REQUEST settings) 1000) |}
  end.

(** [response.json()], falling back to [response.text] when it raises. *)
Definition parse_body (response : Response.t) : Py.value :=
  match Response.json_body response with
  | Some j => j
  | None => VStr (Response.text response)
  end.

Definition _request (method endpoint : string) (kwargs : Kwargs) : M APIResponse.t :=
  do self <- get_client then
  let url := base_url self +:+ "/" +:+ lstrip "/" endpoint in
  let kwargs := setdefault_timeout kwargs in
  run logger (LogRequest method url) then
  run (match kw_json kwargs with
       | Some body => logger (LogRequestBody (_mask_sensitive_data body))
       | None => ret tt
       end) then
  try_reraise
    (do response <-
       session_request
         {| req_method := method; req_url := url; req_kwargs := kwargs |} then
     let data := parse_body response in
     run logger (LogResponse (Response.status_code response)) then
     let log_data := if is_dict data then _mask_sensitive_data data else data in
     run logger (LogResponseData log_data) then
     ret {| APIResponse.status_code := Response.status_code response;
            APIResponse.data := data;
            APIResponse.success := Response.ok response;
            APIResponse.raw_response := response |})
    (fun e => logger (LogRequestFailed e)).

Definition get (endpoint : string) (kwargs : Kwargs) : M APIResponse.t :=
  _request "GET" endpoint kwargs.

Definition post (endpoint : string) (kwargs : Kwargs) : M APIResponse.t :=
  _request "POST" endpoint kwargs.

(** The text an f-string inserts for a value: a [str] as it is. *)
Definition fstring (v : Py.value) : string :=
  match v with
  | VStr s => s
  | _ => py_format v
  end.

End methods.

Module AuthAPI.
Section methods.
Context `{Platform}.

Definition register (email name password : string) : M APIResponse.t :=
  post "auth/register"
    (with_json (VDict [("email", VStr email); ("name", VStr name);
                       ("password", VStr password)])).

Definition login (email_or_username password : string) : M APIResponse.t :=
  do response <-
    post "auth/login"
      (with_json (VDict [("emailOrUsername", VStr email_or_username);
                         ("password", VStr password)])) then
  run (if APIResponse.success response then
         run logger (LogLoggedIn email_or_username) then
         let data :=
           default (VDict []) (dict_get "data" (APIResponse.json response)) in
         match data with
         | VDict d =>
             let access_token := default VNone (dict_get "accessToken" d) in
             if truthy access_token then
               do h <- get_headers then
               run set_headers
                     (headers_set "Authorization" ("Bearer " +:+ fstring access_token) h) then
               logger LogTokenSet
             else ret tt
         | _ => raise (AttributeError "get")
         end
       else ret tt) then
  ret response.

Definition logout : M APIResponse.t :=
  do response <- post "auth/logout" no_kwargs then
  do h <- get_headers then
  run set_headers (headers_pop "Authorization" h) then
  ret response.

Definition get_current_user : M APIResponse.t :=
  get "auth/me" no_kwargs.

End methods.
End AuthAPI.

Module BlogAPIClient.
Section methods.
Context `{Platform}.

(** [BlogAPIClient(base_url)]: [base_url or settings.urls.base_api], without
    trailing slashes, and a fresh session with the default headers. *)
Definition init (base_url : option string) : BaseAPIClient * list LogRecord :=
  let url :=
    match base_url with
    | Some u => if String.eqb u "" then urls_base_api settings else u
    | None => urls_base_api settings
    end in
  let url := rstrip "/" url in
  let h :=
    headers_update
      (dict_set "Content-Type" "application/json" (default_headers settings))
      session_defaults in
  ({| ApiClient.base_url := url;
      session := {| headers := h; cookies := [] |} |},
   [LogInitialized url]).

Definition get_cookies : M (gmap string string) :=
  do self <- get_client then
  ret (fold_left (fun acc c => <[cookie_name c := cookie_value c]> acc)
         (cookies (session self)) ∅).

Definition clear_session : M unit :=
  run set_cookies [] then
  logger LogSessionCleared.

End methods.
End BlogAPIClient.

Definition with_params (params : list (string * Py.value)) : Kwargs :=
  {| kw_json := None; kw_params := Some params; kw_timeout := None |}.

Section verbs.
Context `{Platform}.

Definition patch (endpoint : string) (kwargs : Kwargs) : M APIResponse.t :=
  _request "PATCH" endpoint kwargs.

Definition put (endpoint : string) (kwargs : Kwargs) : M APIResponse.t :=
  _request "PUT" endpoint kwargs.

Definition delete (endpoint : string) (kwargs : Kwargs) : M APIResponse.t :=
  _request "DELETE" endpoint kwargs.

End verbs.

Module PostsAPI.
Section methods.
Context `{Platform}.

(** The query of [get_newsfeed]: [userId] is added [if user_id]. *)
Definition get_newsfeed_params (page limit : Z) (user_id : option Z)
  : list (string * Py.value) :=
  let params := [("page", VInt page); ("limit", VInt limit)] in
  if truthy (optional_int user_id)
  then dict_set "userId" (optional_int user_id) params
  else params.

Definition get_newsfeed (page limit : Z) (user_id : option Z) : M APIResponse.t :=
  get "newsfeed" (with_params (get_newsfeed_params page limit user_id)).

Definition create_post (post_data : list (string * Py.value)) : M APIResponse.t :=
  post "blog-posts" (with_json (VDict post_data)).

(** [{"userId": user_id} if user_id else {}] *)
Definition get_post_params (user_id : option Z) : list (string * Py.value) :=
  if truthy (optional_int user_id) then [("userId", optional_int user_id)] else [].

Definition get_post (post_id : Z) (user_id : option Z) : M APIResponse.t :=
  get ("blog-posts/" +:+ fstring (VInt post_id))
    (with_params (get_post_params user_id)).

Definition update_post (post_id : Z) (update_data : list (string * Py.value))
  : M APIResponse.t :=
  patch ("blog-posts/" +:+ fstring (VInt post_id)) (with_json (VDict update_data)).

Definition delete_post (post_id : Z) : M APIResponse.t :=
  delete ("blog-posts/" +:+ fstring (VInt post_id)) no_kwargs.

Definition repost (original_post_id author_id : Z) : M APIResponse.t :=
  post "blog-posts/repost"
    (with_json (VDict [("authorId", VInt author_id);
                       ("originalPostId", VInt original_post_id);
                       ("type", VStr "REPOST")])).

End methods.
End PostsAPI.

Module CommentsAPI.
Section methods.
Context `{Platform}.

(** The dict [create_comment] builds before the call. *)
Definition create_comment_data (post_id commenter_id : Z) (content : string)
    (parent_comment_id reply_to_user_id : option Z) : list (string * Py.value) :=
  let data :=
    [("postId", VInt post_id); ("commenterId", VInt commenter_id);
     ("content", VStr content); ("type", VStr "POST")] in
  let data :=
    if truthy (optional_int parent_comment_id)
    then dict_set "parentCommentId" (optional_int parent_comment_id) data
    else data in
  let data :=
    if truthy (optional_int reply_to_user_id)
    then dict_set "replyToUserId" (optional_int reply_to_user_id) data
    else data in
  data.

Definition create_comment (post_id commenter_id : Z) (content : string)
    (parent_comment_id reply_to_user_id : option Z) : M APIResponse.t :=
  post "comments"
    (with_json (VDict (create_comment_data post_id commenter_id content
                         parent_comment_id reply_to_user_id))).

Definition get_comments (post_id page limit : Z) : M APIResponse.t :=
  get "comments"
    (with_params [("postId", VInt post_id); ("page", VInt page);
                  ("limit", VInt limit)]).

Definition delete_comment (comment_id : Z) : M APIResponse.t :=
  delete ("comments/" +:+ fstring (VInt comment_id)) no_kwargs.

End methods.
End CommentsAPI.

Module ReactsAPI.
Section methods.
Context `{Platform}.

(** The body [react] sends. *)
Definition react_data (user_id target_id emoji_id : Z) (target_type : string)
  : list (string * Py.value) :=
  [("userId", VInt user_id);
   ("postId", if String.eqb target_type "post" then VInt target_id else VNone);
   ("commentId", if String.eqb target_type "comment" then VInt target_id else VNone);
   ("emojiId", VInt emoji_id);
   ("type", VStr (upper target_type))].

Definition react (user_id target_id emoji_id : Z) (target_type : string)
  : M APIResponse.t :=
  post "user-reacts" (with_json (VDict (react_data user_id target_id emoji_id target_type))).

Definition get_reacts (target_id : Z) (target_type : string) : M APIResponse.t :=
  get "user-reacts"
    (with_params
       [(if String.eqb target_type "post" then "postId" else "commentId",
         VInt target_id)]).

End methods.
End ReactsAPI.

End ApiClient.

(** ** tests/conftest.py: what the fixtures do with the client *)

Module Conftest.
Import Py ApiClient.
Section fixtures.
Context `{Platform}.

(** The cleanup of [api_as_user] and [existing_user_api] after the test:
    [api.auth.logout()] then [api.clear_session()]. *)
Definition logout_and_clear : M unit :=
  run AuthAPI.logout then BlogAPIClient.clear_session.

End fixtures.
End Conftest.

(** ** A scripted backend and a fixed generator, for running the model *)

Module Demo.
Import Py ApiClient DataBuilder.

(** A backend that answers each request with the next scripted result and
    stores the cookies scripted with it; with nothing left, the connection
    fails. *)
Definition scripted_transport
    (script : list (outcome Response.t * list Cookie))
    (s : Session) (rq : Request)
  : outcome Response.t * list Cookie * list (outcome Response.t * list Cookie) :=
  match script with
  | [] => (Raises (TransportError "connection refused"), cookies s, [])
  | (res, new_cookies) :: rest => (res, (cookies s ++ new_cookies)%list, rest)
  end.

#[local] Instance scripted : Platform := {|
  settings := {| default_headers := [("Accept", "application/json")];
                 urls_base_api := "http://localhost:3000/api/";
                 timeouts_API_REQUEST := 30000 |};
  Server := list (outcome Response.t * list Cookie);
  session_defaults := ∅;
  transport := scripted_transport;
  py_format := fun v =>
                 match v with
                 | VNone => "None"
                 | VBool true => "True"
                 | VBool false => "False"
                 | _ => "<object>"
                 end
|}.

Definition fresh_world (script : list (outcome Response.t * list Cookie)) : World :=
  {| client := fst (BlogAPIClient.init None);
     server := script;
     log_sink := snd (BlogAPIClient.init None) |}.

Definition respond (status : Z) (body : Py.value) : outcome Response.t * list Cookie :=
  (Returns {| Response.status_code := status; Response.text := "";
              Response.json_body := Some body |}, []).

(** A login answer carrying [token] as [data.accessToken]. *)
Definition login_body (token : Py.value) : Py.value :=
  VDict [("data", VDict [("accessToken", token);
                         ("user", VDict [("id", VInt 7)])])].

Definition session_cookie : Cookie :=
  {| cookie_name := "sid"; cookie_value := "c0ffee";
     cookie_domain := "localhost"; cookie_path := "/" |}.

Definition login_answer (status : Z) (body : Py.value)
  : outcome Response.t * list Cookie :=
  (Returns {| Response.status_code := status; Response.text := "";
              Response.json_body := Some body |}, [session_cookie]).

(** The world after a successful login that also set a session cookie. *)
Definition logged_in_world : World :=
  snd (AuthAPI.login "user@example.com" "Secret#123"
         (fresh_world [login_answer 200 (login_body (VStr "tok123"));
                       respond 200 (VDict [])])).

(** A generator that always produces the same texts. *)
#[local] Instance fixed_faker : Faker := {|
  rng := nat;
  paragraph := fun g => ("Lorem ipsum dolor sit amet.", S g);
  image_url := fun g => ("https://picsum.photos/640/480", S g);
  sentence := fun _ g => ("Quick brown fox jumps over dogs.", S g)
|}.

(** Providers for the user and comment builders, with fixed answers. *)
#[local] Instance fixed_profile : FakerProfile fixed_faker := {|
  email := fun g => ("jane.doe@example.org", S g);
  name := fun g => ("Jane Doe", S g);
  text := fun _ g => ("Writes about gardens.", S g);
  randint := fun a _ g => (a, S g)
|}.

(** A client that holds two cookies and a bearer header. *)
Definition busy_world : World :=
  {| client :=
       {| base_url := "http://localhost:3000/api";
          session :=
            {| headers := headers_set "Authorization" "Bearer old" ∅;
               cookies := [session_cookie;
                           {| cookie_name := "theme"; cookie_value := "dark";
                              cookie_domain := "localhost"; cookie_path := "/" |}] |} |};
     server := [respond 401 (VDict [("message", VStr "bad credentials")]);
                respond 200 (VDict [])];
     log_sink := [] |}.

(** The logged-in client with a backend that no longer answers. *)
Definition offline_world : World :=
  {| client := client logged_in_world; server := []; log_sink := [] |}.

End Demo.

(** ** Properties of the API client *)

Section request_facts.
Import Py ApiClient.
Context `{Platform}.

(** A request that returns wraps a response the backend gave. *)
Lemma _request_returns method endpoint kwargs w r w' :
  _request method endpoint kwargs w = (Returns r, w') ->
  exists response,
    r = {| APIResponse.status_code := Response.status_code response;
           APIResponse.data := parse_body response;
           APIResponse.success := Response.ok response;
           APIResponse.raw_response := response |}.
Proof.
  unfold _request, bind, get_client, try_reraise, session_request, logger, ret.
  destruct (kw_json (setdefault_timeout kwargs)); simpl;
    destruct (transport _ _ _) as [[[response|e] jar] srv]; simpl;
    intros Heq; inversion Heq; subst; eauto.
Qed.

(** Whatever the outcome, a request leaves the default headers alone. *)
Lemma _request_headers method endpoint kwargs w :
  headers (session (client (snd (_request method endpoint kwargs w))))
  = headers (session (client w)).
Proof.
  unfold _request, bind, get_client, try_reraise, session_request, logger, ret.
  destruct (kw_json (setdefault_timeout kwargs)); simpl;
    destruct (transport _ _ _) as [[[response|e] jar] srv]; reflexivity.
Qed.

(** The request body reaches the log sink in its masked form, right after
    the line announcing the request. *)
Lemma _request_logs_masked_body method endpoint kwargs body w :
  kw_json kwargs = Some body ->
  exists rest,
    log_sink (snd (_request method endpoint kwargs w))
    = log_sink w
      ++ LogRequest method (base_url (client w) +:+ "/" +:+ lstrip "/" endpoint)
         :: LogRequestBody (_mask_sensitive_data body) :: rest
    /\ Forall (fun r => forall b, r <> LogRequestBody b) rest.
Proof.
  intros Hjson.
  assert (kw_json (setdefault_timeout kwargs) = Some body) as Hjson'.
  { unfold setdefault_timeout. by destruct (kw_timeout kwargs). }
  unfold _request, bind, get_client, try_reraise, session_request, logger, ret.
  rewrite Hjson'. simpl.
  destruct (transport _ _ _) as [[[response|e] jar] srv]; simpl;
    rewrite <- !app_assoc; simpl; eexists; (split; [reflexivity|]);
    repeat constructor; discriminate.
Qed.

Lemma ok_iff (response : Response.t) :
  Response.ok response = true
  <-> ~ (400 <= Response.status_code response < 600).
Proof.
  unfold Response.ok. rewrite negb_true_iff, andb_false_iff.
  rewrite Z.leb_gt, Z.ltb_ge. lia.
Qed.

End request_facts.

Section envelope.
Import Py ApiClient.

(** C1 (as amended): for every call through [_request] that yields a transport
    response, the envelope's [success] is [true] exactly when the transport
    status code is outside 400..599 (the session library's [ok]); so it is
    [true] for every 2xx status and [false] for every 4xx and 5xx status, and
    it is the same for any two responses with the same status code, whatever
    their bodies. *)
Theorem request_success_from_status `{Platform} method endpoint kwargs w r w' :
  _request method endpoint kwargs w = (Returns r, w') ->
  APIResponse.status_code r = Response.status_code (APIResponse.raw_response r)
  /\ (APIResponse.success r = true <-> ~ (400 <= APIResponse.status_code r < 600))
  /\ (200 <= APIResponse.status_code r <= 299 -> APIResponse.success r = true)
  /\ (400 <= APIResponse.status_code r <= 599 -> APIResponse.success r = false)
  /\ (forall body_text body_json,
        Response.ok {| Response.status_code := APIResponse.status_code r;
                       Response.text := body_text;
                       Response.json_body := body_json |}
        = APIResponse.success r).
Proof.
  intros Hrun. destruct (_request_returns _ _ _ _ _ _ Hrun) as [response ->].
  simpl. pose proof (ok_iff response) as Hok.
  repeat split; try tauto.
  - intros Hrange. apply Hok. lia.
  - intros Hrange. destruct (Response.ok response) eqn:E; [|reflexivity].
    exfalso. apply (proj1 Hok); [reflexivity | lia].
Qed.

Lemma request_success_from_status_witness :
  exists r w',
    _request "GET" "newsfeed" no_kwargs
      (Demo.fresh_world [Demo.respond 200 (VDict [("ok", VBool false)])])
    = (Returns r, w')
    /\ APIResponse.success r = true.
Proof.
  eexists _, _. split; [vm_compute; reflexivity|].
  eapply (request_success_from_status (H := Demo.scripted)
            "GET" "newsfeed" no_kwargs
            (Demo.fresh_world [Demo.respond 200 (VDict [("ok", VBool false)])])).
  - vm_compute. reflexivity.
  - simpl. lia.
Defined.

(** C1 as stated fails: a 304 answer is returned with [success = true]. *)
Lemma request_success_not_only_2xx :
  exists r w',
    _request "GET" "newsfeed" no_kwargs
      (Demo.fresh_world [Demo.respond 304 (VStr "")])
    = (Returns r, w')
    /\ ~ (APIResponse.success r = true
          <-> 200 <= APIResponse.status_code r <= 299).
Proof.
  eexists _, _. split; [vm_compute; reflexivity|].
  simpl. intros [Hto _]. specialize (Hto eq_refl). lia.
Qed.

End envelope.

Section auth_state.
Import Py ApiClient.

Lemma headers_get_set name val (h : Headers) :
  headers_get name (headers_set name val h) = Some val.
Proof. unfold headers_get, headers_set. by rewrite lookup_insert_eq. Qed.

Lemma headers_get_pop name (h : Headers) :
  headers_get name (headers_pop name h) = None.
Proof. unfold headers_get, headers_pop. by rewrite lookup_delete_eq. Qed.

(** What one [clear_session()] does to the world. *)
Lemma clear_session_run `{Platform} (w : World) :
  BlogAPIClient.clear_session w
  = (Returns tt,
     {| client := {| base_url := base_url (client w);
                     session := {| headers := headers (session (client w));
                                   cookies := [] |} |};
        server := server w;
        log_sink := log_sink w ++ [LogSessionCleared] |}).
Proof. reflexivity. Qed.


(** C10: whenever the backend answers the logout call, whatever the status
    and whether or not an [Authorization] header was installed, [logout()]
    returns that envelope and the default headers have no [Authorization]
    entry afterwards. *)
Theorem logout_drops_authorization `{Platform} (w : World) r w0 :
  post "auth/logout" no_kwargs w = (Returns r, w0) ->
  exists w',
    AuthAPI.logout w = (Returns r, w')
    /\ headers_get "Authorization" (headers (session (client w'))) = None
    /\ headers (session (client w'))
       = headers_pop "Authorization" (headers (session (client w))).
Proof.
  intros Hpost. unfold AuthAPI.logout, bind. rewrite Hpost.
  pose proof (_request_headers "POST" "auth/logout" no_kwargs w) as Hh.
  unfold post in Hpost. rewrite Hpost in Hh. simpl in Hh.
  eexists. split; [reflexivity|]. simpl. rewrite Hh.
  split; [apply headers_get_pop | reflexivity].
Qed.

Lemma logout_drops_authorization_witness :
  exists r w',
    AuthAPI.logout (Demo.fresh_world [Demo.respond 500 (VStr "down")])
    = (Returns r, w')
    /\ APIResponse.success r = false
    /\ headers_get "Authorization" (headers (session (client w'))) = None.
Proof.
  destruct (logout_drops_authorization (H := Demo.scripted)
              (Demo.fresh_world [Demo.respond 500 (VStr "down")]) _ _ eq_refl)
    as (w' & Hrun & Hnone & _).
  eexists _, w'. split; [exact Hrun|]. split; [reflexivity | exact Hnone].
Defined.

End auth_state.

Section session_reset.
Import Py ApiClient.

(** [clear_session()] empties the cookie jar and leaves every default header
    where it was. *)
Lemma clear_session_headers `{Platform} (w : World) :
  let w' := snd (BlogAPIClient.clear_session w) in
  cookies (session (client w')) = []
  /\ headers (session (client w')) = headers (session (client w)).
Proof. rewrite clear_session_run. simpl. auto. Qed.

(** C2, at a client that logged in and holds a session cookie:
    [clear_session()] empties the cookie jar, and the [Authorization] bearer
    header installed by the login is still among the default headers, so the
    client is not back in the unauthenticated state. *)
Theorem clear_session_keeps_bearer :
  let w := Demo.logged_in_world in
  let w' := snd (BlogAPIClient.clear_session w) in
  cookies (session (client w)) = [Demo.session_cookie]
  /\ headers_get "Authorization" (headers (session (client w)))
     = Some "Bearer tok123"
  /\ fst (BlogAPIClient.clear_session w) = Returns tt
  /\ cookies (session (client w')) = []
  /\ headers_get "Authorization" (headers (session (client w')))
     = Some "Bearer tok123".
Proof. vm_compute. repeat split. Qed.

(** C9, at a client that logged in and holds a session cookie: a second
    [clear_session()] leaves the client exactly as the first one left it,
    with an empty cookie jar, but that state is not the unauthenticated one:
    after both calls the [Authorization] bearer header installed by the login
    is still among the default headers. *)
Theorem clear_session_twice_keeps_bearer :
  let w := Demo.logged_in_world in
  let once := snd (BlogAPIClient.clear_session w) in
  let twice := snd (BlogAPIClient.clear_session once) in
  headers_get "Authorization" (headers (session (client w)))
  = Some "Bearer tok123"
  /\ fst (BlogAPIClient.clear_session once) = Returns tt
  /\ client twice = client once
  /\ cookies (session (client twice)) = []
  /\ headers_get "Authorization" (headers (session (client once)))
     = Some "Bearer tok123"
  /\ headers_get "Authorization" (headers (session (client twice)))
     = Some "Bearer tok123".
Proof. vm_compute. repeat split. Qed.

End session_reset.

Section login_cycle.
Import Py ApiClient.

Lemma bind_returns `{Platform} {A B} (c : M A) (k : A -> M B) w b w' :
  bind c k w = (Returns b, w') ->
  exists a w0, c w = (Returns a, w0) /\ k a w0 = (Returns b, w').
Proof.
  unfold bind. destruct (c w) as [[a|e] w0]; [eauto | discriminate].
Qed.

(** A [logout()] that returns has popped the header. *)
Lemma logout_headers `{Platform} (w : World) r w' :
  AuthAPI.logout w = (Returns r, w') ->
  headers (session (client w'))
  = headers_pop "Authorization" (headers (session (client w))).
Proof.
  intros Hrun. unfold AuthAPI.logout in Hrun.
  apply bind_returns in Hrun as (r0 & w0 & Hpost & Hrun).
  apply bind_returns in Hrun as (h & w1 & Hget & Hrun).
  apply bind_returns in Hrun as (u & w2 & Hset & Hrun).
  pose proof (_request_headers "POST" "auth/logout" no_kwargs w) as Hh.
  unfold post in Hpost. rewrite Hpost in Hh. simpl in Hh.
  unfold get_headers in Hget. inversion Hget; subst.
  unfold set_headers, set_session in Hset. inversion Hset; subst.
  unfold ret in Hrun. inversion Hrun; subst. simpl. by rewrite Hh.
Qed.

(** C4 (as amended): after [login] returns a success envelope whose body
    carries a truthy [data.accessToken], the default headers hold
    [Authorization: Bearer <token>] for that token; and after [logout]
    returns, from any state, the default headers have no [Authorization]
    entry. *)
Theorem login_installs_bearer `{Platform} identifier password w r w' token :
  AuthAPI.login identifier password w = (Returns r, w') ->
  APIResponse.success r = true ->
  get_at ["data"; "accessToken"] (APIResponse.data r) = Some token ->
  truthy token = true ->
  headers_get "Authorization" (headers (session (client w')))
  = Some ("Bearer " +:+ fstring token)
  /\ (forall token_text, token = VStr token_text -> fstring token = token_text)
  /\ (forall w1 r2 w2,
        AuthAPI.logout w1 = (Returns r2, w2) ->
        headers_get "Authorization" (headers (session (client w2))) = None).
Proof.
  intros Hrun Hsucc Htok Htruthy. split; [|split].
  - unfold AuthAPI.login in Hrun.
    apply bind_returns in Hrun as (r0 & w0 & Hpost & Hrun).
    apply bind_returns in Hrun as (u & w1 & Hblock & Hrun).
    unfold ret in Hrun. inversion Hrun; subst r0 w1. clear Hrun.
    rewrite Hsucc in Hblock.
    apply bind_returns in Hblock as (u1 & w2 & Hlog & Hblock).
    simpl in Htok. unfold APIResponse.json in Hblock.
    destruct (APIResponse.data r) as [| | | | |d]; try discriminate.
    destruct (dict_get "data" d) as [[| | | | |d']|]; try discriminate.
    simpl in Hblock.
    destruct (dict_get "accessToken" d') as [tok|]; [|discriminate].
    inversion Htok; subst tok. simpl in Hblock. rewrite Htruthy in Hblock.
    apply bind_returns in Hblock as (h & w3 & Hget & Hblock).
    apply bind_returns in Hblock as (u2 & w4 & Hset & Hblock).
    unfold get_headers in Hget. inversion Hget; subst h w3.
    unfold set_headers, set_session in Hset. inversion Hset; subst w4.
    unfold logger in Hblock. inversion Hblock; subst. simpl.
    apply headers_get_set.
  - intros token_text ->. reflexivity.
  - intros w1 r2 w2 Hout. rewrite (logout_headers _ _ _ Hout).
    apply headers_get_pop.
Qed.

Lemma login_installs_bearer_witness :
  exists r w',
    AuthAPI.login "user@example.com" "Secret#123"
      (Demo.fresh_world [Demo.login_answer 200 (Demo.login_body (VStr "tok123"))])
    = (Returns r, w')
    /\ headers_get "Authorization" (headers (session (client w')))
       = Some "Bearer tok123".
Proof.
  eexists _, _. split; [vm_compute; reflexivity|].
  eapply (login_installs_bearer (H := Demo.scripted)
            "user@example.com" "Secret#123"
            (Demo.fresh_world
               [Demo.login_answer 200 (Demo.login_body (VStr "tok123"))])
            _ _ (VStr "tok123")); vm_compute; reflexivity.
Defined.

(** C4 as stated fails: a 200 login answer without an access token is a
    success envelope, and no [Authorization] header is installed. *)
Lemma login_success_without_token :
  exists r w',
    AuthAPI.login "user@example.com" "Secret#123"
      (Demo.fresh_world [Demo.respond 200 (VDict [("data", VDict [])])])
    = (Returns r, w')
    /\ APIResponse.success r = true
    /\ headers_get "Authorization" (headers (session (client w'))) = None.
Proof. eexists _, _. vm_compute. repeat split. Qed.

End login_cycle.

(** ** Masking of logged bodies *)

Section masking.
Import Py ApiClient.

Lemma mask_dict d :
  _mask_sensitive_data (VDict d) = VDict (map mask_entry d).
Proof. reflexivity. Qed.

Lemma mask_not_dict v : is_dict v = false -> _mask_sensitive_data v = v.
Proof. by destruct v. Qed.

Lemma dict_get_mask k d :
  dict_get k (map mask_entry d)
  = (fun v => snd (mask_entry (k, v))) <$> dict_get k d.
Proof.
  induction d as [|[k' v] d IH]; [reflexivity|].
  simpl. destruct (is_sensitive k') eqn:Hs; simpl.
  - destruct (String.eqb k k') eqn:E; [|exact IH].
    apply String.eqb_eq in E. subst k'. simpl. by rewrite Hs.
  - destruct (is_dict v) eqn:Hd; simpl;
      (destruct (String.eqb k k') eqn:E; [|exact IH]);
      apply String.eqb_eq in E; subst k'; simpl; by rewrite Hs, Hd.
Qed.








End masking.

Section masking_claim.
Import Py ApiClient.






End masking_claim.

(** ** Properties of the test-data builders *)

Section block_facts.
Import Py DataBuilder.
Context `{F : Faker}.

(** [fill] only ever changes the content of the draft. *)
Lemma fill_type (self : BlockBuilder.t) g :
  BlockData.type (fst (BlockBuilder.fill self g)) = BlockData.type self.
Proof.
  unfold BlockBuilder.fill, bind, ret.
  destruct (String.eqb (BlockData.content self) ""); [|reflexivity].
  destruct (String.eqb (BlockData.type self) _).
  { by destruct (paragraph g). }
  destruct (String.eqb (BlockData.type self) _).
  { by destruct (image_url g). }
  by destruct (String.eqb (BlockData.type self) _).
Qed.

Lemma to_dict_type (b : BlockData.t) :
  get_at ["type"] (BlockData.to_dict b) = Some (VStr (BlockData.type b)).
Proof.
  unfold BlockData.to_dict.
  by destruct (str_set (BlockData.image_caption b)),
              (str_set (BlockData.object_fit b)).
Qed.

Lemma to_dict_content (b : BlockData.t) :
  get_at ["content"] (BlockData.to_dict b) = Some (VStr (BlockData.content b)).
Proof.
  unfold BlockData.to_dict.
  by destruct (str_set (BlockData.image_caption b)),
              (str_set (BlockData.object_fit b)).
Qed.

(** The built block is serialized with the type of the draft. *)
Lemma build_type (self : BlockBuilder.t) g :
  get_at ["type"] (fst (BlockBuilder.build self g))
  = Some (VStr (BlockData.type self)).
Proof.
  unfold BlockBuilder.build, bind, ret.
  pose proof (fill_type self g) as Hty.
  destruct (BlockBuilder.fill self g) as [self' g']. simpl in Hty.
  unfold fst. by rewrite to_dict_type, Hty.
Qed.

(** The content an empty draft is given, by type. *)
Lemma fill_empty (self : BlockBuilder.t) g :
  BlockData.content self = "" ->
  (BlockData.type self = "TEXT" ->
   fst (BlockBuilder.fill self g)
   = BlockBuilder.with_content (fst (paragraph g)) self)
  /\ (BlockData.type self = "IMAGE" ->
      fst (BlockBuilder.fill self g)
      = BlockBuilder.with_content (fst (image_url g)) self)
  /\ (BlockData.type self = "CODE" ->
      fst (BlockBuilder.fill self g)
      = BlockBuilder.with_content "print('Hello World')" self).
Proof.
  intros Hempty. unfold BlockBuilder.fill, bind, ret. rewrite Hempty.
  split; [|split]; intros ->; simpl.
  - by destruct (paragraph g).
  - by destruct (image_url g).
  - reflexivity.
Qed.

Lemma build_content (self : BlockBuilder.t) g :
  get_at ["content"] (fst (BlockBuilder.build self g))
  = Some (VStr (BlockData.content (fst (BlockBuilder.fill self g)))).
Proof.
  unfold BlockBuilder.build, bind, ret.
  destruct (BlockBuilder.fill self g) as [self' g'].
  unfold fst. by rewrite to_dict_content.
Qed.

(** With a generator that keeps the library's promises, an empty TEXT, IMAGE
    or CODE draft is built with generated content. *)
Lemma build_generates_content `{!FakerContract F} (self : BlockBuilder.t) g :
  BlockData.content self = "" ->
  (BlockData.type self = "TEXT" ->
   exists text, get_at ["content"] (fst (BlockBuilder.build self g)) = Some (VStr text)
                /\ text <> "")
  /\ (BlockData.type self = "IMAGE" ->
      exists url, get_at ["content"] (fst (BlockBuilder.build self g)) = Some (VStr url)
                  /\ String.prefix "https://" url = true)
  /\ (BlockData.type self = "CODE" ->
      get_at ["content"] (fst (BlockBuilder.build self g))
      = Some (VStr "print('Hello World')")).
Proof.
  intros Hempty. destruct (fill_empty self g Hempty) as (Htext & Himage & Hcode).
  rewrite build_content.
  split; [|split]; intros Hty.
  - rewrite (Htext Hty). eexists. split; [reflexivity|]. apply paragraph_nonempty.
  - rewrite (Himage Hty). eexists. split; [reflexivity|]. apply image_url_shape.
  - by rewrite (Hcode Hty).
Qed.

End block_facts.

Section block_claim.
Import Py DataBuilder.

(** C5, at a QUOTE draft with no content: [BlockBuilder().as_quote().build()]
    returns a block whose content is the empty string, whatever the
    generator; no content is generated for this type. *)
Theorem build_quote_content_empty `{Faker} g :
  let block := fst (BlockBuilder.build (BlockBuilder.as_quote BlockBuilder.init) g) in
  get_at ["type"] block = Some (VStr "QUOTE")
  /\ get_at ["content"] block = Some (VStr "").
Proof. simpl. auto. Qed.

End block_claim.

Section post_facts.
Import Py DataBuilder.
Context `{F : Faker}.

Local Abbreviation text_block b := (get_at ["type"] b = Some (VStr "TEXT")).

Lemma gen_bind_run {A B} (c : Gen A) (k : A -> Gen B) g :
  bind c k g = k (fst (c g)) (snd (c g)).
Proof. unfold bind. by destruct (c g). Qed.

(** One pass of the loop appends one TEXT block and touches nothing else. *)
Lemma add_random_text_block_run (self : PostBuilder.t) g :
  exists block,
    fst (PostBuilder.add_random_text_block self g) = PostBuilder.add_block block self
    /\ text_block block.
Proof.
  unfold PostBuilder.add_random_text_block, BlockBuilder.with_random_text, bind, ret.
  destruct (paragraph g) as [text g1].
  match goal with
  | |- context [BlockBuilder.build ?b g1] =>
      pose proof (build_type b g1) as Hty;
      destruct (BlockBuilder.build b g1) as [block g2]
  end.
  exists block. split; [reflexivity | exact Hty].
Qed.

(** [n] passes append [n] TEXT blocks after the ones already there. *)
Lemma repeat_blocks_run n (self : PostBuilder.t) g :
  exists new,
    let self' := fst (PostBuilder.repeat_blocks n self g) in
    PostData.blocks self' = PostData.blocks self ++ new
    /\ length new = n
    /\ Forall (fun b => text_block b) new
    /\ PostData.title self' = PostData.title self
    /\ PostData.author_id self' = PostData.author_id self.
Proof.
  revert self g. induction n as [|n IH]; intros self g.
  - exists []. simpl. rewrite app_nil_r. auto.
  - simpl. unfold bind.
    destruct (add_random_text_block_run self g) as (block & Hstep & Hty).
    destruct (PostBuilder.add_random_text_block self g) as [self1 g1].
    simpl in Hstep. subst self1.
    destruct (IH (PostBuilder.add_block block self) g1)
      as (new & Hblocks & Hlen & Hall & Htitle & Hauthor).
    exists (block :: new). simpl in *.
    rewrite Hblocks, <- app_assoc. simpl.
    repeat split; auto.
Qed.

(** [build()] as a function of the draft and the generator state. *)
Lemma build_eq (self : PostBuilder.t) g :
  fst (PostBuilder.build self g)
  = let empty_title := String.eqb (PostData.title self) "" in
    let self1 :=
      if empty_title
      then PostBuilder.with_title (rstrip "." (fst (sentence 6 g))) self
      else self in
    let g1 := if empty_title then snd (sentence 6 g) else g in
    if list_set (PostData.blocks self1) then self1
    else fst (PostBuilder.add_random_text_block self1 g1).
Proof.
  unfold PostBuilder.build, PostBuilder.add_random_text_blocks.
  change (Z.to_nat 1) with 1%nat. cbn [PostBuilder.repeat_blocks].
  cbv zeta. rewrite !gen_bind_run.
  destruct (String.eqb (PostData.title self) "").
  - rewrite gen_bind_run. unfold ret at 1 2. cbn [fst snd].
    destruct (list_set _); [reflexivity|].
    rewrite gen_bind_run. reflexivity.
  - unfold ret at 1 2. cbn [fst snd].
    destruct (list_set _); [reflexivity|].
    rewrite gen_bind_run. reflexivity.
Qed.

(** [build()] fills the title when empty and adds one block when there is
    none; chosen values stay. *)
Lemma build_run (self : PostBuilder.t) g :
  let post := fst (PostBuilder.build self g) in
  PostData.author_id post = PostData.author_id self
  /\ (PostData.title self <> "" -> PostData.title post = PostData.title self)
  /\ (PostData.title self = "" ->
      PostData.title post = rstrip "." (fst (sentence 6 g)))
  /\ (PostData.blocks self <> [] -> PostData.blocks post = PostData.blocks self)
  /\ (PostData.blocks self = [] ->
      exists block, PostData.blocks post = [block] /\ text_block block).
Proof.
  cbv zeta. rewrite build_eq. cbv zeta.
  destruct (String.eqb (PostData.title self) "") eqn:Ht;
    [apply String.eqb_eq in Ht | apply String.eqb_neq in Ht].
  - cbn [PostBuilder.with_title PostData.blocks].
    destruct (PostData.blocks self) as [|b0 bs] eqn:Hb; cbn [list_set].
    + destruct (add_random_text_block_run
                  (PostBuilder.with_title (rstrip "." (fst (sentence 6 g))) self)
                  (snd (sentence 6 g))) as (block & -> & Hty).
      cbn [PostBuilder.add_block PostBuilder.with_title PostData.author_id
           PostData.title PostData.blocks].
      rewrite Hb. repeat split; try congruence.
      intros _. exists block. split; [reflexivity|exact Hty].
    + cbn [PostBuilder.with_title PostData.author_id PostData.title
           PostData.blocks].
      rewrite Hb. repeat split; congruence.
  - destruct (PostData.blocks self) as [|b0 bs] eqn:Hb; cbn [list_set].
    + destruct (add_random_text_block_run self g) as (block & -> & Hty).
      cbn [PostBuilder.add_block PostData.author_id PostData.title
           PostData.blocks].
      rewrite Hb. repeat split; try congruence.
      intros _. exists block. split; [reflexivity|exact Hty].
    + rewrite Hb. repeat split; congruence.
Qed.

End post_facts.

Section serialization_facts.
Import Py DataBuilder.

Ltac split_post p :=
  destruct p as [title type author blocks community original hashtags thumb];
  unfold PostData.to_dict;
  cbn [PostData.title PostData.type PostData.author_id PostData.blocks
       PostData.community_id PostData.original_post_id PostData.hashtag_ids
       PostData.thumbnail_url];
  destruct community as [c|], original as [o|], hashtags as [|h hs],
           thumb as [u|];
  cbn [int_set list_set str_set default];
  repeat match goal with
         | |- context [negb (Z.eqb ?n 0)] => destruct (Z.eqb n 0)
         | |- context [negb (String.eqb ?u "")] => destruct (String.eqb u "")
         end;
  cbn [negb].

Lemma to_dict_required (p : PostData.t) :
  let d := PostData.to_dict p in
  dict_get "title" d = Some (VStr (PostData.title p))
  /\ dict_get "type" d = Some (VStr (PostData.type p))
  /\ dict_get "authorId" d = Some (VInt (PostData.author_id p))
  /\ dict_get "blocks" d = Some (VList (PostData.blocks p)).
Proof. split_post p; repeat split. Qed.

Lemma to_dict_community (p : PostData.t) :
  dict_get "communityId" (PostData.to_dict p)
  = match PostData.community_id p with
    | Some n => if n =? 0 then None else Some (VInt n)
    | None => None
    end.
Proof. split_post p; reflexivity. Qed.

Lemma to_dict_original (p : PostData.t) :
  dict_get "originalPostId" (PostData.to_dict p)
  = match PostData.original_post_id p with
    | Some n => if n =? 0 then None else Some (VInt n)
    | None => None
    end.
Proof. split_post p; reflexivity. Qed.

Lemma to_dict_hashtags (p : PostData.t) :
  dict_get "hashtagIds" (PostData.to_dict p)
  = match PostData.hashtag_ids p with
    | [] => None
    | ids => Some (VList (map VInt ids))
    end.
Proof. split_post p; reflexivity. Qed.

Lemma to_dict_thumbnail (p : PostData.t) :
  dict_get "thumbnailUrl" (PostData.to_dict p)
  = match PostData.thumbnail_url p with
    | Some u => if String.eqb u "" then None else Some (VStr u)
    | None => None
    end.
Proof. split_post p; reflexivity. Qed.

Lemma to_dict_no_none (p : PostData.t) k :
  dict_get k (PostData.to_dict p) <> Some VNone.
Proof.
  split_post p; simpl;
    repeat (destruct (String.eqb k _); [discriminate|]); discriminate.
Qed.

End serialization_facts.

Section post_claims.
Import Py DataBuilder.

Local Abbreviation text_block b := (get_at ["type"] b = Some (VStr "TEXT")).

(** C6: the serialized post always has the keys title, type, authorId and
    blocks; each of communityId, originalPostId, hashtagIds and thumbnailUrl
    is present only when its field was set, and then carries the field's
    value; an unset field gives no key; and no key is mapped to [None]. *)
Theorem to_dict_omits_unset (p : PostData.t) :
  let d := PostData.to_dict p in
  (dict_get "title" d = Some (VStr (PostData.title p))
   /\ dict_get "type" d = Some (VStr (PostData.type p))
   /\ dict_get "authorId" d = Some (VInt (PostData.author_id p))
   /\ dict_get "blocks" d = Some (VList (PostData.blocks p)))
  /\ (forall v, dict_get "communityId" d = Some v ->
        exists n, PostData.community_id p = Some n /\ v = VInt n)
  /\ (forall v, dict_get "originalPostId" d = Some v ->
        exists n, PostData.original_post_id p = Some n /\ v = VInt n)
  /\ (forall v, dict_get "hashtagIds" d = Some v ->
        PostData.hashtag_ids p <> [] /\ v = VList (map VInt (PostData.hashtag_ids p)))
  /\ (forall v, dict_get "thumbnailUrl" d = Some v ->
        exists u, PostData.thumbnail_url p = Some u /\ v = VStr u)
  /\ (PostData.community_id p = None -> dict_get "communityId" d = None)
  /\ (PostData.original_post_id p = None -> dict_get "originalPostId" d = None)
  /\ (PostData.hashtag_ids p = [] -> dict_get "hashtagIds" d = None)
  /\ (PostData.thumbnail_url p = None -> dict_get "thumbnailUrl" d = None)
  /\ (forall k, dict_get k d <> Some VNone).
Proof.
  cbv zeta. rewrite to_dict_community, to_dict_original, to_dict_hashtags,
    to_dict_thumbnail.
  split; [apply to_dict_required|].
  split. { intros v. destruct (PostData.community_id p) as [n|]; [|discriminate].
           destruct (n =? 0); [discriminate|]. intros [= <-]. eauto. }
  split. { intros v. destruct (PostData.original_post_id p) as [n|]; [|discriminate].
           destruct (n =? 0); [discriminate|]. intros [= <-]. eauto. }
  split. { intros v. destruct (PostData.hashtag_ids p) as [|h hs]; [discriminate|].
           intros [= <-]. split; [discriminate|reflexivity]. }
  split. { intros v. destruct (PostData.thumbnail_url p) as [u|]; [|discriminate].
           destruct (String.eqb u ""); [discriminate|]. intros [= <-]. eauto. }
  split. { by intros ->. }
  split. { by intros ->. }
  split. { by intros ->. }
  split. { by intros ->. }
  apply to_dict_no_none.
Qed.

(** C8: after any chain of configuration calls on a fresh builder, the empty
    chain included, the post returned by [build()] has at least one block;
    when the chain added none, it has exactly one, a generated TEXT block. *)
Theorem build_never_without_blocks `{Faker} (calls : list PostBuilder.call) g :
  let draft := PostBuilder.run_calls calls PostBuilder.init g in
  let post := fst (PostBuilder.build (fst draft) (snd draft)) in
  (1 <= length (PostData.blocks post))%nat
  /\ (PostData.blocks (fst draft) = [] ->
      exists block, PostData.blocks post = [block] /\ text_block block).
Proof.
  cbv zeta.
  destruct (build_run (fst (PostBuilder.run_calls calls PostBuilder.init g))
              (snd (PostBuilder.run_calls calls PostBuilder.init g)))
    as (_ & _ & _ & Hkeep & Hadd).
  split; [|exact Hadd].
  destruct (PostData.blocks (fst (PostBuilder.run_calls calls PostBuilder.init g)))
    as [|b0 bs] eqn:Hb.
  - destruct (Hadd eq_refl) as (block & -> & _). simpl. lia.
  - rewrite Hkeep by discriminate. simpl. lia.
Qed.

(** C7 (as amended): with a generator that keeps the library's promises,
    [create_quick_post(author_id, blocks_count=N)] returns a post with the
    given author id, a non-empty title and [max(N, 1)] blocks, each serialized
    with type "TEXT": exactly [N] blocks for [N >= 1], and the one block that
    [build()] adds for [N = 0]. *)
Theorem create_quick_post_shape `{F : Faker} `{!FakerContract F}
    (author_id blocks_count : Z) g :
  let post := fst (create_quick_post author_id blocks_count g) in
  PostData.author_id post = author_id
  /\ PostData.title post <> ""
  /\ Z.of_nat (length (PostData.blocks post)) = Z.max blocks_count 1
  /\ Forall (fun b => text_block b) (PostData.blocks post)
  /\ dict_get "blocks" (PostData.to_dict post) = Some (VList (PostData.blocks post)).
Proof.
  cbv zeta. unfold create_quick_post, PostBuilder.with_random_title.
  rewrite !gen_bind_run. unfold ret. cbn [fst snd].
  set (titled := PostBuilder.with_title (rstrip "." (fst (sentence 6 g)))
                   (PostBuilder.with_author author_id PostBuilder.init)).
  set (g0 := snd (sentence 6 g)).
  unfold PostBuilder.add_random_text_blocks.
  destruct (repeat_blocks_run (Z.to_nat blocks_count) titled g0)
    as (new & Hblocks & Hlen & Hall & Htitle & Hauthor).
  cbv zeta in Hblocks, Hlen, Hall, Htitle, Hauthor.
  set (filled := fst (PostBuilder.repeat_blocks (Z.to_nat blocks_count) titled g0)) in *.
  set (g1 := snd (PostBuilder.repeat_blocks (Z.to_nat blocks_count) titled g0)).
  destruct (build_run filled g1) as (Ha & Hkeep & _ & Hsame & Hadd).
  assert (PostData.title filled <> "") as Hne.
  { rewrite Htitle. subst titled. cbn [PostBuilder.with_title PostData.title].
    apply sentence_has_word. }
  split. { rewrite Ha, Hauthor. reflexivity. }
  split. { rewrite (Hkeep Hne). exact Hne. }
  assert (PostData.blocks filled = new) as Hnew by (by rewrite Hblocks).
  destruct new as [|b0 bs].
  - destruct (Hadd Hnew) as (block & Hone & Hty).
    split; [|split].
    + rewrite Hone. simpl in Hlen. simpl. lia.
    + rewrite Hone. by constructor.
    + apply to_dict_required.
  - rewrite (Hsame ltac:(by rewrite Hnew)), Hnew.
    split; [|split].
    + simpl in Hlen. simpl length. lia.
    + exact Hall.
    + pose proof (to_dict_required (fst (PostBuilder.build filled g1))) as Hreq.
      cbv zeta in Hreq. destruct Hreq as (_ & _ & _ & ->).
      by rewrite (Hsame ltac:(by rewrite Hnew)), Hnew.
Qed.

Lemma fixed_faker_contract : FakerContract Demo.fixed_faker.
Proof. split; intros; simpl; [discriminate | reflexivity | discriminate]. Defined.

Lemma create_quick_post_shape_witness :
  let post := fst (create_quick_post (H := Demo.fixed_faker) 7 2 0%nat) in
  PostData.author_id post = 7
  /\ PostData.title post = "Quick brown fox jumps over dogs"
  /\ Z.of_nat (length (PostData.blocks post)) = 2.
Proof.
  intros post. split; [|split; [reflexivity|]].
  - apply (create_quick_post_shape (F := Demo.fixed_faker)
             (FakerContract0 := fixed_faker_contract) 7 2 0%nat).
  - apply (create_quick_post_shape (F := Demo.fixed_faker)
             (FakerContract0 := fixed_faker_contract) 7 2 0%nat).
Defined.

(** C7 as stated fails at [blocks_count = 0]: the post has one block. *)
Lemma create_quick_post_zero_count :
  let post := fst (create_quick_post (H := Demo.fixed_faker) 7 0 0%nat) in
  length (PostData.blocks post) = 1%nat
  /\ length (PostData.blocks post) <> Z.to_nat 0.
Proof. split; [reflexivity | discriminate]. Qed.

End post_claims.

(** ** Further properties of the API client *)

Section request_more.
Import Py ApiClient.
Context `{Platform}.

(** The request [_request] hands to the session. *)
Local Abbreviation sent method endpoint kwargs w :=
  {| req_method := method;
     req_url := base_url (client w) +:+ "/" +:+ lstrip "/" endpoint;
     req_kwargs := setdefault_timeout kwargs |}.

(** X1: when the session raises, [_request] raises the same exception after
    logging it as the last record; no response is logged, the cookies and
    backend are as the failed call left them, and the default headers and the
    base URL are untouched. *)
Theorem request_failure_logged_and_raised method endpoint kwargs w e jar srv :
  transport (server w) (session (client w)) (sent method endpoint kwargs w)
  = (Raises e, jar, srv) ->
  let out := _request method endpoint kwargs w in
  fst out = Raises e
  /\ (exists before,
        log_sink (snd out) = log_sink w ++ before ++ [LogRequestFailed e]
        /\ Forall (fun r => forall st d, r <> LogResponse st /\ r <> LogResponseData d)
             before)
  /\ cookies (session (client (snd out))) = jar
  /\ server (snd out) = srv
  /\ headers (session (client (snd out))) = headers (session (client w))
  /\ base_url (client (snd out)) = base_url (client w).
Proof.
  intros Hsend. cbv zeta.
  unfold _request, bind, get_client, try_reraise, session_request, logger, ret.
  destruct (kw_json (setdefault_timeout kwargs)) as [body|]; simpl;
    rewrite Hsend; simpl; (split; [reflexivity|]);
    (split; [|auto]); rewrite <- !app_assoc; simpl.
  - exists [LogRequest method (base_url (client w) +:+ "/" +:+ lstrip "/" endpoint);
            LogRequestBody (_mask_sensitive_data body)].
    split; [reflexivity|]. repeat constructor; discriminate.
  - exists [LogRequest method (base_url (client w) +:+ "/" +:+ lstrip "/" endpoint)].
    split; [reflexivity|]. repeat constructor; discriminate.
Qed.

(** X2: [_request] makes exactly one call to the session: its outcome,
    cookies and backend state are those of that call.  The body sent is the
    caller's, not the masked copy, and the timeout sent is the caller's, or
    the configured default when the caller gave none. *)
Theorem request_is_one_session_call method endpoint kwargs w :
  let rq := sent method endpoint kwargs w in
  let answer := transport (server w) (session (client w)) rq in
  let out := _request method endpoint kwargs w in
  fst out
  = match fst (fst answer) with
    | Returns response =>
        Returns {| APIResponse.status_code := Response.status_code response;
                   APIResponse.data := parse_body response;
                   APIResponse.success := Response.ok response;
                   APIResponse.raw_response := response |}
    | Raises e => Raises e
    end
  /\ cookies (session (client (snd out))) = snd (fst answer)
  /\ server (snd out) = snd answer
  /\ kw_json (req_kwargs rq) = kw_json kwargs
  /\ kw_params (req_kwargs rq) = kw_params kwargs
  /\ kw_timeout (req_kwargs rq)
     = Some (default (Qmake (timeouts_API_REQUEST settings) 1000) (kw_timeout kwargs)).
Proof.
  cbv zeta.
  assert (kw_json (setdefault_timeout kwargs) = kw_json kwargs
          /\ kw_params (setdefault_timeout kwargs) = kw_params kwargs
          /\ kw_timeout (setdefault_timeout kwargs)
             = Some (default (Qmake (timeouts_API_REQUEST settings) 1000)
                       (kw_timeout kwargs))) as (Hj & Hp & Ht).
  { unfold setdefault_timeout.
    destruct (kw_timeout kwargs) eqn:E; simpl; rewrite ?E; auto. }
  unfold _request, bind, get_client, try_reraise, session_request, logger, ret.
  cbn [req_kwargs].
  destruct (kw_json (setdefault_timeout kwargs)) as [body|] eqn:Hbody; simpl;
    destruct (transport _ _ _) as [[[response|e] jar] srv]; simpl;
    repeat split; congruence.
Qed.

Lemma lstrip_slashes n endpoint :
  lstrip "/" (Nat.iter n (String "/"%char) endpoint) = lstrip "/" endpoint.
Proof. induction n as [|n IH]; [reflexivity | exact IH]. Qed.

(** X3: any number of leading slashes on the endpoint gives the same call. *)
Theorem request_ignores_leading_slashes n method endpoint kwargs w :
  _request method (Nat.iter n (String "/"%char) endpoint) kwargs w
  = _request method endpoint kwargs w.
Proof. unfold _request. by rewrite lstrip_slashes. Qed.

Lemma _request_base_url method endpoint kwargs w :
  base_url (client (snd (_request method endpoint kwargs w)))
  = base_url (client w).
Proof.
  unfold _request, bind, get_client, try_reraise, session_request, logger, ret.
  destruct (kw_json (setdefault_timeout kwargs)); simpl;
    by destruct (transport _ _ _) as [[[response|e] jar] srv].
Qed.

(** X4: whatever the outcome, a request leaves the default headers and the
    base URL as they were, and the log only grows. *)
Theorem request_keeps_client_settings method endpoint kwargs w :
  let out := _request method endpoint kwargs w in
  headers (session (client (snd out))) = headers (session (client w))
  /\ base_url (client (snd out)) = base_url (client w)
  /\ exists added, log_sink (snd out) = log_sink w ++ added.
Proof.
  cbv zeta.
  unfold _request, bind, get_client, try_reraise, session_request, logger, ret.
  destruct (kw_json (setdefault_timeout kwargs)); simpl;
    destruct (transport _ _ _) as [[[response|e] jar] srv]; simpl;
    (split; [reflexivity|]); (split; [reflexivity|]);
    rewrite <- !app_assoc; eauto.
Qed.

End request_more.

Section request_more_witness.
Import Py ApiClient.

Lemma request_failure_logged_and_raised_witness :
  fst (_request "GET" "newsfeed" no_kwargs (Demo.fresh_world []))
  = Raises (TransportError "connection refused").
Proof.
  apply (request_failure_logged_and_raised (H := Demo.scripted)
           "GET" "newsfeed" no_kwargs (Demo.fresh_world [])
           (TransportError "connection refused") [] []).
  reflexivity.
Defined.

End request_more_witness.

Section url_join.
Import Py ApiClient.

Lemma append_nil_l (u : string) : "" +:+ u = u.
Proof. reflexivity. Qed.

Lemma append_cons_l a (s u : string) : String a s +:+ u = String a (s +:+ u).
Proof. reflexivity. Qed.

Lemma rstrip_no_trailing c s t : rstrip c s <> t +:+ String c "".
Proof.
  revert t. induction s as [|a rest IH]; intros t; simpl.
  - destruct t; rewrite ?append_nil_l, ?append_cons_l; discriminate.
  - destruct (rstrip c rest) as [|b r] eqn:Hr.
    + destruct (Ascii.eqb a c) eqn:Ha.
      * destruct t; rewrite ?append_nil_l, ?append_cons_l; discriminate.
      * apply Ascii.eqb_neq in Ha.
        destruct t as [|a' [|a'' t']];
          rewrite ?append_nil_l, ?append_cons_l, ?append_nil_l; congruence.
    + destruct t as [|a' t']; rewrite ?append_nil_l, ?append_cons_l.
      * discriminate.
      * intros [= _ Heq]. by apply (IH t').
Qed.

Lemma lstrip_no_leading c s t : lstrip c s <> String c t.
Proof.
  induction s as [|a rest IH]; simpl; [discriminate|].
  destruct (Ascii.eqb a c) eqn:Ha; [exact IH|].
  apply Ascii.eqb_neq in Ha. congruence.
Qed.

(** X5: a client built by [BlogAPIClient(base_url)] has a base URL without a
    trailing slash, an empty [base_url] falls back to the configured one, and
    the part of a request URL after the joining slash never starts with a
    slash: base and endpoint meet at exactly one slash. *)
Theorem client_url_has_one_joining_slash `{Platform}
    (base : option string) (endpoint : string) :
  let api := fst (BlogAPIClient.init base) in
  (forall t, base_url api <> t +:+ "/")
  /\ (forall t, lstrip "/" endpoint <> "/" +:+ t)
  /\ BlogAPIClient.init (Some "") = BlogAPIClient.init None
  /\ cookies (session api) = [].
Proof.
  cbv zeta. split; [|split; [|split]].
  - intros t. unfold BlogAPIClient.init. cbn [fst base_url].
    apply rstrip_no_trailing.
  - intros t. apply lstrip_no_leading.
  - reflexivity.
  - reflexivity.
Qed.

End url_join.

Section login_more.
Import Py ApiClient.

Local Abbreviation login_json identifier password :=
  (with_json (VDict [("emailOrUsername", VStr identifier);
                     ("password", VStr password)])).

(** What [login] does after the POST returned [r] in world [w0]. *)
Lemma login_after_post `{Platform} identifier password w r w0 :
  post "auth/login" (login_json identifier password) w = (Returns r, w0) ->
  headers (session (client w0)) = headers (session (client w))
  /\ AuthAPI.login identifier password w
     = bind (if APIResponse.success r then
               run logger (LogLoggedIn identifier) then
               match default (VDict []) (dict_get "data" (APIResponse.json r)) with
               | VDict d =>
                   if truthy (default VNone (dict_get "accessToken" d)) then
                     do h <- get_headers then
                     run set_headers
                           (headers_set "Authorization"
                              ("Bearer " +:+ fstring (default VNone (dict_get "accessToken" d))) h) then
                     logger LogTokenSet
                   else ret tt
               | _ => raise (AttributeError "get")
               end
             else ret tt)
         (fun _ => ret r) w0.
Proof.
  intros Hpost. split.
  - pose proof (_request_headers "POST" "auth/login"
                  (login_json identifier password) w) as Hh.
    unfold post in Hpost. rewrite Hpost in Hh. exact Hh.
  - unfold AuthAPI.login. unfold bind at 1. rewrite Hpost. reflexivity.
Qed.

(** X6: [login] changes the default headers only when it installs a token:
    when it returns an envelope that is not a success, or whose body has no
    truthy [data.accessToken], the headers are exactly as before, so a bearer
    header from an earlier login stays. *)
Theorem login_without_token_keeps_headers `{Platform} identifier password w r w' :
  AuthAPI.login identifier password w = (Returns r, w') ->
  (APIResponse.success r = false
   \/ forall token, get_at ["data"; "accessToken"] (APIResponse.data r) = Some token ->
                    truthy token = false) ->
  headers (session (client w')) = headers (session (client w))
  /\ base_url (client w') = base_url (client w).
Proof.
  intros Hrun Hno.
  pose proof Hrun as Hrun0. unfold AuthAPI.login in Hrun0.
  apply bind_returns in Hrun0 as (r0 & w0 & Hpost & Hrest).
  destruct (login_after_post _ _ _ _ _ Hpost) as [Hh Heq].
  pose proof (_request_base_url "POST" "auth/login"
                (login_json identifier password) w) as Hb.
  fold (post "auth/login" (login_json identifier password) w) in Hb.
  rewrite Hpost in Hb. cbn [snd] in Hb.
  rewrite Heq in Hrun. clear Heq Hrest.
  apply bind_returns in Hrun as (u & w1 & Hblock & Hret).
  unfold ret in Hret. inversion Hret; subst r0 w1. clear Hret.
  rewrite <- Hh, <- Hb.
  destruct (APIResponse.success r) eqn:Hs.
  - destruct Hno as [|Hno]; [discriminate|].
    apply bind_returns in Hblock as (u1 & w2 & Hlog & Hblock).
    unfold logger in Hlog. inversion Hlog; subst u1 w2. clear Hlog.
    unfold APIResponse.json in Hblock. simpl in Hno.
    destruct (APIResponse.data r) as [| | | | |d];
      try (unfold ret in Hblock; simpl in Hblock; inversion Hblock; subst; by simpl).
    destruct (dict_get "data" d) as [[| | | | |d']|]; simpl in Hblock;
      try discriminate;
      try (unfold ret in Hblock; inversion Hblock; subst; by simpl).
    destruct (dict_get "accessToken" d') as [tok|]; simpl in Hblock.
    + rewrite (Hno tok eq_refl) in Hblock.
      unfold ret in Hblock; inversion Hblock; subst; by simpl.
    + unfold ret in Hblock; inversion Hblock; subst; by simpl.
  - unfold ret in Hblock. inversion Hblock; subst. by simpl.
Qed.

Lemma login_without_token_keeps_headers_witness :
  let out := AuthAPI.login "user@example.com" "wrong" Demo.busy_world in
  (exists r, fst out = Returns r /\ APIResponse.status_code r = 401)
  /\ headers_get "Authorization" (headers (session (client (snd out))))
     = Some "Bearer old".
Proof.
  intros out. split; [eexists; split; vm_compute; reflexivity|].
  destruct out as [[r|e] w'] eqn:Hrun; subst out.
  - assert (APIResponse.success r = false) as Hs.
    { pose proof (f_equal fst Hrun) as Hfst. vm_compute in Hfst.
      by inversion Hfst. }
    destruct (login_without_token_keeps_headers (H := Demo.scripted)
                "user@example.com" "wrong" Demo.busy_world r w' Hrun
                (or_introl Hs)) as [Hh _].
    cbn [snd]. rewrite Hh. reflexivity.
  - pose proof (f_equal fst Hrun) as Hfst. vm_compute in Hfst. discriminate.
Defined.

(** X7: when the login answer is a success whose ["data"] entry is present
    but not a dict (for instance [null]), [login] raises an attribute error
    after the request was made, and installs nothing. *)
Theorem login_raises_on_non_dict_data `{Platform} identifier password w r w0 v :
  post "auth/login" (login_json identifier password) w = (Returns r, w0) ->
  APIResponse.success r = true ->
  dict_get "data" (APIResponse.json r) = Some v ->
  is_dict v = false ->
  exists w',
    AuthAPI.login identifier password w = (Raises (AttributeError "get"), w')
    /\ headers (session (client w')) = headers (session (client w))
    /\ cookies (session (client w')) = cookies (session (client w0))
    /\ server w' = server w0.
Proof.
  intros Hpost Hs Hdata Hv.
  destruct (login_after_post _ _ _ _ _ Hpost) as [Hh ->].
  rewrite Hs, Hdata. cbn [default].
  unfold bind, logger, raise.
  destruct v; try discriminate; eexists; (split; [reflexivity|]); simpl; auto.
Qed.

Lemma login_raises_on_non_dict_data_witness :
  fst (AuthAPI.login "user@example.com" "Secret#123"
         (Demo.fresh_world [Demo.respond 200 (VDict [("data", VNone)])]))
  = Raises (AttributeError "get").
Proof.
  destruct (login_raises_on_non_dict_data (H := Demo.scripted)
              "user@example.com" "Secret#123"
              (Demo.fresh_world [Demo.respond 200 (VDict [("data", VNone)])])
              _ _ VNone eq_refl eq_refl eq_refl eq_refl) as (w' & -> & _).
  reflexivity.
Defined.

End login_more.

Section auth_logging.
Import Py ApiClient.

Local Abbreviation not_request_body :=
  (fun r : LogRecord => forall b, r <> LogRequestBody b).

(** X8: [login] and [register] put the request body on the log with the
    password replaced by the mask, whatever the password and whatever happens
    to the call; no other record of the call carries a request body. *)
Theorem auth_calls_log_masked_password `{Platform}
    (identifier email name password : string) (w : World) :
  (exists rest,
     log_sink (snd (AuthAPI.login identifier password w))
     = log_sink w
       ++ LogRequest "POST" (base_url (client w) +:+ "/auth/login")
          :: LogRequestBody (VDict [("emailOrUsername", VStr identifier);
                                    ("password", VStr "********")])
          :: rest
     /\ Forall not_request_body rest)
  /\ (exists rest,
        log_sink (snd (AuthAPI.register email name password w))
        = log_sink w
          ++ LogRequest "POST" (base_url (client w) +:+ "/auth/register")
             :: LogRequestBody (VDict [("email", VStr email); ("name", VStr name);
                                       ("password", VStr "********")])
             :: rest
        /\ Forall not_request_body rest).
Proof.
  split.
  - destruct (_request_logs_masked_body "POST" "auth/login"
                (with_json (VDict [("emailOrUsername", VStr identifier);
                                   ("password", VStr password)]))
                _ w eq_refl) as (rest & Hlog & Hrest).
    fold (post "auth/login"
            (with_json (VDict [("emailOrUsername", VStr identifier);
                               ("password", VStr password)])) w) in Hlog.
    destruct (post "auth/login" _ w) as [[r|e] w0] eqn:Hpost; cbn [snd] in Hlog.
    + destruct (login_after_post _ _ _ _ _ Hpost) as [_ ->].
      assert (exists extra,
                 log_sink (snd (bind
                   (if APIResponse.success r then
                      run logger (LogLoggedIn identifier) then
                      match default (VDict []) (dict_get "data" (APIResponse.json r)) with
                      | VDict d =>
                          if truthy (default VNone (dict_get "accessToken" d)) then
                            do h <- get_headers then
                            run set_headers
                                  (headers_set "Authorization"
                                     ("Bearer " +:+ fstring (default VNone (dict_get "accessToken" d))) h) then
                            logger LogTokenSet
                          else ret tt
                      | _ => raise (AttributeError "get")
                      end
                    else ret tt)
                   (fun _ => ret r) w0))
                 = log_sink w0 ++ extra
                 /\ Forall not_request_body extra) as (extra & -> & Hextra).
      { destruct (APIResponse.success r).
        - destruct (default (VDict []) (dict_get "data" (APIResponse.json r)))
            as [| | | | |d];
            try (exists [LogLoggedIn identifier]; split; [reflexivity|];
                 repeat constructor; discriminate).
          destruct (truthy (default VNone (dict_get "accessToken" d))) eqn:Ht.
          + exists [LogLoggedIn identifier; LogTokenSet].
            unfold bind, logger, get_headers, set_headers, set_session, ret.
            simpl. rewrite <- app_assoc. split; [reflexivity|].
            repeat constructor; discriminate.
          + exists [LogLoggedIn identifier].
            unfold bind, logger, ret. simpl.
            split; [reflexivity|]. repeat constructor; discriminate.
        - exists []. unfold bind, ret. simpl. rewrite app_nil_r.
          split; [reflexivity|constructor]. }
      rewrite Hlog. exists (rest ++ extra).
      rewrite <- app_assoc. split; [reflexivity|].
      apply Forall_app; auto.
    + exists rest. split; [|exact Hrest].
      unfold AuthAPI.login, bind. rewrite Hpost. exact Hlog.
  - apply (_request_logs_masked_body "POST" "auth/register"
             (with_json (VDict [("email", VStr email); ("name", VStr name);
                                ("password", VStr password)])) _ w eq_refl).
Qed.

End auth_logging.

(** ** Further properties of masking *)

Section masking_more.
Import Py ApiClient.

(** Induction over values, with the hypothesis for every element of a list
    and every entry of a dict. *)
Lemma value_nested_ind (P : value -> Prop) :
  P VNone ->
  (forall b, P (VBool b)) ->
  (forall n, P (VInt n)) ->
  (forall s, P (VStr s)) ->
  (forall items, Forall P items -> P (VList items)) ->
  (forall entries, Forall (fun kv => P (snd kv)) entries -> P (VDict entries)) ->
  forall v, P v.
Proof.
  intros Hnone Hbool Hint Hstr Hlist Hdict.
  fix IH 1. intros [|b|n|s|items|entries].
  - exact Hnone.
  - apply Hbool.
  - apply Hint.
  - apply Hstr.
  - apply Hlist. revert items. fix IHl 1.
    intros [|v items]; constructor; [apply IH | apply IHl].
  - apply Hdict. revert entries. fix IHd 1.
    intros [|[k v] entries]; constructor; [apply IH | apply IHd].
Qed.

Lemma is_dict_mask v : is_dict (_mask_sensitive_data v) = is_dict v.
Proof. by destruct v. Qed.

(** X9: masking an already masked value changes nothing. *)
Theorem mask_idempotent (v : value) :
  _mask_sensitive_data (_mask_sensitive_data v) = _mask_sensitive_data v.
Proof.
  induction v as [| | | | |entries IH] using value_nested_ind; try reflexivity.
  rewrite !mask_dict. f_equal. rewrite map_map.
  induction IH as [|[k v] entries Hv _ IHentries]; [reflexivity|].
  cbn [map]. rewrite IHentries. f_equal.
  unfold mask_entry at 2. cbn [snd] in Hv.
  destruct (is_sensitive k) eqn:Hk.
  - unfold mask_entry. by rewrite Hk.
  - destruct (is_dict v) eqn:Hd; unfold mask_entry; rewrite Hk.
    + by rewrite is_dict_mask, Hd, Hv.
    + by rewrite Hd.
Qed.

(** X10: masking keeps every key, in order, and hands back unchanged any
    value under an ASCII key that is not sensitive unless that value is a
    dict; in particular a list is never looked into, so secrets in a list of
    dicts reach the log. *)
Theorem mask_passes_lists_through (d : list (string * value)) (k : string) (v : value) :
  is_ascii k = true ->
  is_sensitive k = false ->
  is_dict v = false ->
  dict_get k d = Some v ->
  get_at [k] (_mask_sensitive_data (VDict d)) = Some v
  /\ (exists d', _mask_sensitive_data (VDict d) = VDict d' /\ keys d' = keys d).
Proof.
  intros _ Hk Hv Hget. rewrite mask_dict. split.
  - cbn [get_at]. rewrite dict_get_mask, Hget.
    cbn [fmap option_fmap option_map]. unfold mask_entry.
    rewrite Hk, Hv. reflexivity.
  - eexists. split; [reflexivity|]. unfold keys. rewrite map_map.
    apply map_ext. intros [k' v']. unfold mask_entry.
    by destruct (is_sensitive k'), (is_dict v').
Qed.

Lemma mask_passes_lists_through_witness :
  _mask_sensitive_data
    (VDict [("users", VList [VDict [("name", VStr "ann");
                                    ("password", VStr "hunter2")]])])
  = VDict [("users", VList [VDict [("name", VStr "ann");
                                   ("password", VStr "hunter2")]])]
  /\ get_at ["users"]
       (_mask_sensitive_data
          (VDict [("users", VList [VDict [("name", VStr "ann");
                                          ("password", VStr "hunter2")]])]))
     = Some (VList [VDict [("name", VStr "ann"); ("password", VStr "hunter2")]]).
Proof.
  split; [reflexivity|].
  apply (mask_passes_lists_through
           [("users", VList [VDict [("name", VStr "ann");
                                    ("password", VStr "hunter2")]])]
           "users"
           (VList [VDict [("name", VStr "ann"); ("password", VStr "hunter2")]]));
    reflexivity.
Defined.

Lemma lower_app (a b : string) : lower (a +:+ b) = lower a +:+ lower b.
Proof. induction a as [|c a IH]; [reflexivity|]. simpl. by rewrite IH. Qed.

Lemma prefix_app (n b : string) : String.prefix n (n +:+ b) = true.
Proof.
  induction n as [|c n IH]; simpl; [by destruct b|].
  destruct (ascii_dec c c); [exact IH | congruence].
Qed.

Lemma contains_prefix (n h : string) :
  String.prefix n h = true -> contains n h = true.
Proof. destruct h; simpl; by intros ->. Qed.

Lemma contains_app (n a b : string) : contains n (a +:+ n +:+ b) = true.
Proof.
  induction a as [|c a IH].
  - rewrite append_nil_l. apply contains_prefix, prefix_app.
  - rewrite append_cons_l. simpl. rewrite IH. apply orb_true_r.
Qed.

(** X11: keys are matched by substring: a key that contains, in any casing
    and anywhere, one of the lower-case keywords is sensitive. *)
Theorem sensitive_by_substring (before word after : string) :
  In (lower word)
     ["password"; "secret"; "token"; "key"; "credential"; "pass"; "pwd"; "api_key"] ->
  is_sensitive (before +:+ word +:+ after) = true.
Proof.
  intros Hin. unfold is_sensitive. rewrite !lower_app.
  apply existsb_exists. exists (lower word). split.
  - unfold sensitive_keys. simpl in Hin. simpl. tauto.
  - apply contains_app.
Qed.

Lemma sensitive_by_substring_witness :
  is_sensitive "monKeyCount" = true.
Proof. apply (sensitive_by_substring "mon" "Key" "Count"). simpl. tauto. Defined.

End masking_more.

(** ** Cookies, teardown and the domain sub-clients *)

Section cookies_more.
Import Py ApiClient.

Lemma fold_cookies_lookup (jar : list Cookie) (m : gmap string string) name :
  fold_left (fun acc c => <[cookie_name c := cookie_value c]> acc) jar m !! name
  = match last (filter (fun c => cookie_name c = name) jar) with
    | Some c => Some (cookie_value c)
    | None => m !! name
    end.
Proof.
  revert m. induction jar as [|c jar IH]; intros m; [reflexivity|].
  cbn [fold_left]. rewrite IH. rewrite filter_cons.
  destruct (decide (cookie_name c = name)) as [Heq|Hne].
  - destruct (filter _ jar) as [|c' rest] eqn:Hf.
    + cbn. rewrite <- Heq. by rewrite lookup_insert_eq.
    + rewrite last_cons_cons, (last_cons c' rest). by destruct (last rest).
  - destruct (last (filter _ jar)); [reflexivity|].
    by rewrite lookup_insert_ne.
Qed.

(** X12: [get_cookies()] never raises and changes nothing; a name maps to the
    value of the last cookie with that name, in the order the jar is iterated,
    so cookies that share a name (on other domains or paths) collapse into
    one entry; a name no cookie has is absent; and right after
    [clear_session()] the mapping is empty. *)
Theorem get_cookies_last_wins `{Platform} (w : World) (name : string) :
  exists m,
    BlogAPIClient.get_cookies w = (Returns m, w)
    /\ m !! name
       = cookie_value
         <$> last (filter (fun c => cookie_name c = name)
                     (cookies (session (client w))))
    /\ fst (BlogAPIClient.get_cookies (snd (BlogAPIClient.clear_session w)))
       = Returns ∅.
Proof.
  eexists. split; [reflexivity|]. split; [|reflexivity].
  rewrite fold_cookies_lookup.
  destruct (last _); [reflexivity|]. by rewrite lookup_empty.
Qed.

(** X13: when the logout request comes back, with any status, the fixture
    cleanup ([logout()] then [clear_session()]) leaves the client with no
    cookie and no [Authorization] header. *)
Theorem cleanup_resets_client `{Platform} (w : World) r w0 :
  post "auth/logout" no_kwargs w = (Returns r, w0) ->
  exists w',
    Conftest.logout_and_clear w = (Returns tt, w')
    /\ cookies (session (client w')) = []
    /\ headers_get "Authorization" (headers (session (client w'))) = None
    /\ headers (session (client w'))
       = headers_pop "Authorization" (headers (session (client w)))
    /\ fst (BlogAPIClient.get_cookies w') = Returns ∅.
Proof.
  intros Hpost.
  pose proof (_request_headers "POST" "auth/logout" no_kwargs w) as Hh.
  fold (post "auth/logout" no_kwargs w) in Hh. rewrite Hpost in Hh.
  cbn [snd] in Hh.
  unfold Conftest.logout_and_clear, AuthAPI.logout, bind. rewrite Hpost.
  eexists. split; [reflexivity|]. simpl. rewrite Hh.
  repeat split; auto using headers_get_pop.
Qed.

Lemma cleanup_resets_client_witness :
  exists w',
    Conftest.logout_and_clear Demo.logged_in_world = (Returns tt, w')
    /\ cookies (session (client w')) = []
    /\ headers_get "Authorization" (headers (session (client w'))) = None.
Proof.
  destruct (cleanup_resets_client (H := Demo.scripted) Demo.logged_in_world
              _ _ eq_refl) as (w' & Hrun & Hc & Hh & _).
  exists w'. auto.
Defined.

(** X14: when the logout request itself fails, the cleanup stops there: the
    exception goes on, [clear_session()] is not reached, and the default
    headers, an installed [Authorization] included, stay as they were. *)
Theorem cleanup_stops_on_failed_logout `{Platform} (w : World) e w0 :
  post "auth/logout" no_kwargs w = (Raises e, w0) ->
  Conftest.logout_and_clear w = (Raises e, w0)
  /\ headers (session (client w0)) = headers (session (client w))
  /\ ~ In LogSessionCleared
        (drop (length (log_sink w)) (log_sink w0)).
Proof.
  intros Hpost.
  pose proof (_request_headers "POST" "auth/logout" no_kwargs w) as Hh.
  fold (post "auth/logout" no_kwargs w) in Hh. rewrite Hpost in Hh.
  cbn [snd] in Hh.
  split; [|split; [exact Hh|]].
  - unfold Conftest.logout_and_clear, AuthAPI.logout, bind. by rewrite Hpost.
  - revert Hpost.
    unfold post, _request, bind, get_client, try_reraise, session_request,
      logger, ret.
    simpl. destruct (transport _ _ _) as [[[response|e'] jar] srv]; simpl;
      intros [= <- <-]. simpl.
    rewrite <- !app_assoc. rewrite drop_app_length. simpl. intuition discriminate.
Qed.

Lemma cleanup_stops_on_failed_logout_witness :
  exists w0,
    Conftest.logout_and_clear Demo.offline_world
    = (Raises (TransportError "connection refused"), w0)
    /\ headers_get "Authorization" (headers (session (client w0)))
       = Some "Bearer tok123"
    /\ cookies (session (client w0)) = [Demo.session_cookie].
Proof.
  eexists. split.
  - apply (cleanup_stops_on_failed_logout (H := Demo.scripted) Demo.offline_world).
    vm_compute. reflexivity.
  - vm_compute. auto.
Defined.

End cookies_more.

Section sub_clients.
Import Py ApiClient DataBuilder.

(** X15: the body [CommentsAPI.create_comment] sends is the serialized form
    of the matching POST-type [CommentData], whatever block id that data
    carries: the facade and the builder agree on which optional ids are
    left out. *)
Theorem create_comment_matches_comment_data
    (post_id commenter_id : Z) (content : string)
    (parent_comment_id reply_to_user_id block_id : option Z) :
  CommentsAPI.create_comment_data post_id commenter_id content
    parent_comment_id reply_to_user_id
  = CommentData.to_dict
      {| CommentData.post_id := post_id;
         CommentData.commenter_id := commenter_id;
         CommentData.content := content;
         CommentData.comment_type := "POST";
         CommentData.parent_comment_id := parent_comment_id;
         CommentData.reply_to_user_id := reply_to_user_id;
         CommentData.block_id := block_id |}.
Proof.
  unfold CommentsAPI.create_comment_data, CommentData.to_dict.
  cbn [CommentData.post_id CommentData.commenter_id CommentData.content
       CommentData.comment_type CommentData.parent_comment_id
       CommentData.reply_to_user_id CommentData.block_id].
  change (String.eqb "POST" "BLOCK") with false. rewrite andb_false_r.
  destruct parent_comment_id as [p|], reply_to_user_id as [r|]; cbn;
    try destruct (p =? 0); try destruct (r =? 0); reflexivity.
Qed.

(** X16: [react] compares the target type as written: exactly "post" fills
    [postId], exactly "comment" fills [commentId], and any other spelling
    (such as "POST") sends both as [None]; the two are never both filled.
    The type is sent upper-cased, which for an ASCII target type is
    [upper target_type]. *)
Theorem react_fills_at_most_one_id
    (user_id target_id emoji_id : Z) (target_type : string) :
  let body := ReactsAPI.react_data user_id target_id emoji_id target_type in
  (is_ascii target_type = true ->
   dict_get "type" body = Some (VStr (upper target_type)))
  /\ (target_type = "post" ->
      dict_get "postId" body = Some (VInt target_id)
      /\ dict_get "commentId" body = Some VNone)
  /\ (target_type = "comment" ->
      dict_get "postId" body = Some VNone
      /\ dict_get "commentId" body = Some (VInt target_id))
  /\ (target_type <> "post" -> target_type <> "comment" ->
      dict_get "postId" body = Some VNone
      /\ dict_get "commentId" body = Some VNone).
Proof.
  cbv zeta. unfold ReactsAPI.react_data. cbn [dict_get String.eqb Ascii.eqb
    Bool.eqb andb].
  split; [intros _; reflexivity|]. split; [|split].
  - intros ->. auto.
  - intros ->. auto.
  - intros Hp Hc. apply String.eqb_neq in Hp, Hc. cbn. rewrite Hp, Hc. auto.
Qed.

End sub_clients.

(** ** Further properties of the test-data builders *)

Section serialization_more.
Import Py ApiClient DataBuilder.

(** X17: a serialized block always has type, content, x, y, width and height
    with the values of the data; [imageCaption] and [objectFit] appear only
    for a caption or fit mode that is given and not empty. *)
Theorem block_to_dict_fields (b : BlockData.t) :
  let d := BlockData.to_dict b in
  let optional (o : option string) :=
    match o with
    | Some s => if String.eqb s "" then None else Some (VStr s)
    | None => None
    end in
  get_at ["type"] d = Some (VStr (BlockData.type b))
  /\ get_at ["content"] d = Some (VStr (BlockData.content b))
  /\ get_at ["x"] d = Some (VInt (BlockData.x b))
  /\ get_at ["y"] d = Some (VInt (BlockData.y b))
  /\ get_at ["width"] d = Some (VInt (BlockData.width b))
  /\ get_at ["height"] d = Some (VInt (BlockData.height b))
  /\ get_at ["imageCaption"] d = optional (BlockData.image_caption b)
  /\ get_at ["objectFit"] d = optional (BlockData.object_fit b).
Proof.
  destruct b as [ty content x y width height caption fit].
  cbv zeta. unfold BlockData.to_dict.
  cbn [BlockData.type BlockData.content BlockData.x BlockData.y BlockData.width
       BlockData.height BlockData.image_caption BlockData.object_fit].
  destruct caption as [c|], fit as [f|]; cbn [str_set default];
    try destruct (String.eqb c ""); try destruct (String.eqb f "");
    cbn; auto 10.
Qed.

(** X18: a serialized comment always has postId, commenterId, content and
    type; [parentCommentId] and [replyToUserId] appear only for an id that is
    given and not zero, and [blockId] only when, in addition, the comment
    type is "BLOCK". *)
Theorem comment_to_dict_fields (c : CommentData.t) :
  let d := CommentData.to_dict c in
  let optional (o : option Z) :=
    match o with
    | Some n => if n =? 0 then None else Some (VInt n)
    | None => None
    end in
  dict_get "postId" d = Some (VInt (CommentData.post_id c))
  /\ dict_get "commenterId" d = Some (VInt (CommentData.commenter_id c))
  /\ dict_get "content" d = Some (VStr (CommentData.content c))
  /\ dict_get "type" d = Some (VStr (CommentData.comment_type c))
  /\ dict_get "parentCommentId" d = optional (CommentData.parent_comment_id c)
  /\ dict_get "replyToUserId" d = optional (CommentData.reply_to_user_id c)
  /\ dict_get "blockId" d
     = (if String.eqb (CommentData.comment_type c) "BLOCK"
        then optional (CommentData.block_id c) else None).
Proof.
  destruct c as [post_id commenter content ty parent reply block].
  cbv zeta. unfold CommentData.to_dict.
  cbn [CommentData.post_id CommentData.commenter_id CommentData.content
       CommentData.comment_type CommentData.parent_comment_id
       CommentData.reply_to_user_id CommentData.block_id].
  destruct (String.eqb ty "BLOCK");
    destruct parent as [p|], reply as [r|], block as [b|];
    cbn [int_set default andb negb];
    try destruct (p =? 0); try destruct (r =? 0); try destruct (b =? 0);
    cbn; auto 10.
Qed.

(** X19: a serialized user always has email, name and password; bio and
    gender are left out only when they are [None], so an empty string is
    kept; and the masked form of the result hides the password. *)
Theorem user_to_dict_fields (u : UserData.t) :
  let d := UserData.to_dict u in
  dict_get "email" d = Some (VStr (UserData.email u))
  /\ dict_get "name" d = Some (VStr (UserData.name u))
  /\ dict_get "password" d = Some (VStr (UserData.password u))
  /\ dict_get "bio" d = VStr <$> UserData.bio u
  /\ dict_get "gender" d = VStr <$> UserData.gender u
  /\ get_at ["password"] (_mask_sensitive_data (VDict d)) = Some (VStr "********").
Proof.
  destruct u as [email name password bio gender].
  cbv zeta. unfold UserData.to_dict.
  cbn [UserData.email UserData.name UserData.password UserData.bio
       UserData.gender].
  destruct bio as [b|], gender as [g|]; cbn; auto 10.
Qed.

End serialization_more.

Section block_builder_more.
Import Py DataBuilder.
Context `{F : Faker}.

(** X20: [BlockBuilder.build()] never replaces content the caller gave: with
    non-empty content the block is the draft serialized as it is, for every
    type, and nothing is drawn from the generator. *)
Theorem build_keeps_given_content (self : BlockBuilder.t) g :
  BlockData.content self <> "" ->
  BlockBuilder.build self g = (BlockData.to_dict self, g).
Proof.
  intros Hne. apply String.eqb_neq in Hne.
  unfold BlockBuilder.build, BlockBuilder.fill, bind, ret. by rewrite Hne.
Qed.

Lemma to_dict_geometry (b : BlockData.t) :
  get_at ["x"] (BlockData.to_dict b) = Some (VInt (BlockData.x b))
  /\ get_at ["y"] (BlockData.to_dict b) = Some (VInt (BlockData.y b))
  /\ get_at ["width"] (BlockData.to_dict b) = Some (VInt (BlockData.width b))
  /\ get_at ["height"] (BlockData.to_dict b) = Some (VInt (BlockData.height b)).
Proof.
  unfold BlockData.to_dict.
  by destruct (str_set (BlockData.image_caption b)),
              (str_set (BlockData.object_fit b)).
Qed.

(** Position and size go into the block as given, whatever [build()] does to
    the content. *)
Lemma build_geometry (self : BlockBuilder.t) g :
  let block := fst (BlockBuilder.build self g) in
  get_at ["x"] block = Some (VInt (BlockData.x self))
  /\ get_at ["y"] block = Some (VInt (BlockData.y self))
  /\ get_at ["width"] block = Some (VInt (BlockData.width self))
  /\ get_at ["height"] block = Some (VInt (BlockData.height self)).
Proof.
  cbv zeta. unfold BlockBuilder.build. rewrite gen_bind_run. unfold ret.
  cbn [fst].
  assert (BlockData.x (fst (BlockBuilder.fill self g)) = BlockData.x self
          /\ BlockData.y (fst (BlockBuilder.fill self g)) = BlockData.y self
          /\ BlockData.width (fst (BlockBuilder.fill self g)) = BlockData.width self
          /\ BlockData.height (fst (BlockBuilder.fill self g)) = BlockData.height self)
    as (Hx & Hy & Hw & Hh).
  { unfold BlockBuilder.fill, bind, ret.
    destruct (String.eqb (BlockData.content self) ""); [|auto].
    destruct (String.eqb (BlockData.type self) _).
    { destruct (paragraph g); auto. }
    destruct (String.eqb (BlockData.type self) _).
    { destruct (image_url g); auto. }
    destruct (String.eqb (BlockData.type self) _); auto. }
  destruct (to_dict_geometry (fst (BlockBuilder.fill self g)))
    as (-> & -> & -> & ->).
  by rewrite Hx, Hy, Hw, Hh.
Qed.

End block_builder_more.

Section block_builder_witness.
Import Py DataBuilder.

Lemma build_keeps_given_content_witness :
  BlockBuilder.build (H := Demo.fixed_faker)
    (BlockBuilder.with_content "as typed"
       (BlockBuilder.as_quote BlockBuilder.init)) 5%nat
  = (VDict [("type", VStr "QUOTE"); ("content", VStr "as typed");
            ("x", VInt 0); ("y", VInt 0); ("width", VInt 12);
            ("height", VInt 100)], 5%nat).
Proof.
  apply (build_keeps_given_content (F := Demo.fixed_faker)
           (BlockBuilder.with_content "as typed"
              (BlockBuilder.as_quote BlockBuilder.init)) 5%nat).
  discriminate.
Defined.

End block_builder_witness.

Section post_builder_more.
Import Py DataBuilder.
Context `{F : Faker}.

(** Blocks in one column: block [i] sits at [x = 0], [y = 100 * i]. *)
Local Abbreviation stacked blocks :=
  (forall (i : nat) (b : value),
      blocks !! i = Some b ->
      get_at ["x"] b = Some (VInt 0)
      /\ get_at ["y"] b = Some (VInt (Z.of_nat i * 100))).

(** The calls that leave the position of a new block to the builder. *)
Local Abbreviation default_layout c :=
  (match c with
   | PostBuilder.AddBlock _ => False
   | PostBuilder.AddTextBlock _ (Some _) => False
   | PostBuilder.AddImageBlock _ (Some _) => False
   | _ => True
   end).

Lemma stacked_snoc (blocks : list value) (b : value) :
  stacked blocks ->
  get_at ["x"] b = Some (VInt 0) ->
  get_at ["y"] b = Some (VInt (Z.of_nat (length blocks) * 100)) ->
  stacked (blocks ++ [b]).
Proof.
  intros Hst Hx Hy i b' Hi.
  apply lookup_snoc_Some in Hi as [[_ Hi]|[-> <-]]; [by apply Hst | by split].
Qed.

Lemma add_text_block_run content (self : PostBuilder.t) g :
  exists block,
    fst (PostBuilder.add_text_block content None self g)
    = PostBuilder.add_block block self
    /\ get_at ["x"] block = Some (VInt 0)
    /\ get_at ["y"] block = Some (VInt (PostBuilder.next_y self)).
Proof.
  unfold PostBuilder.add_text_block. rewrite gen_bind_run. unfold ret.
  cbn [fst]. eexists. split; [reflexivity|].
  match goal with
  | |- context [BlockBuilder.build ?b g] =>
      destruct (build_geometry b g) as (Hx & Hy & _)
  end.
  split; [exact Hx | exact Hy].
Qed.

Lemma add_image_block_run url (self : PostBuilder.t) g :
  exists block,
    fst (PostBuilder.add_image_block url None self g)
    = PostBuilder.add_block block self
    /\ get_at ["x"] block = Some (VInt 0)
    /\ get_at ["y"] block = Some (VInt (PostBuilder.next_y self)).
Proof.
  unfold PostBuilder.add_image_block. rewrite gen_bind_run. unfold ret.
  cbn [fst]. eexists. split; [reflexivity|].
  match goal with
  | |- context [BlockBuilder.build ?b g] =>
      destruct (build_geometry b g) as (Hx & Hy & _)
  end.
  split; [exact Hx | exact Hy].
Qed.

Lemma add_random_text_block_geometry (self : PostBuilder.t) g :
  exists block,
    fst (PostBuilder.add_random_text_block self g)
    = PostBuilder.add_block block self
    /\ get_at ["x"] block = Some (VInt 0)
    /\ get_at ["y"] block = Some (VInt (PostBuilder.next_y self)).
Proof.
  unfold PostBuilder.add_random_text_block, BlockBuilder.with_random_text.
  rewrite !gen_bind_run. unfold ret. cbn [fst snd].
  eexists. split; [reflexivity|].
  match goal with
  | |- context [BlockBuilder.build ?b ?g1] =>
      destruct (build_geometry b g1) as (Hx & Hy & _)
  end.
  split; [exact Hx | exact Hy].
Qed.

Lemma add_block_stacked block (self : PostBuilder.t) :
  stacked (PostData.blocks self) ->
  get_at ["x"] block = Some (VInt 0) ->
  get_at ["y"] block = Some (VInt (PostBuilder.next_y self)) ->
  stacked (PostData.blocks (PostBuilder.add_block block self)).
Proof. intros Hst Hx Hy. by apply stacked_snoc. Qed.

Lemma repeat_blocks_stacked n (self : PostBuilder.t) g :
  stacked (PostData.blocks self) ->
  stacked (PostData.blocks (fst (PostBuilder.repeat_blocks n self g))).
Proof.
  revert self g. induction n as [|n IH]; intros self g Hst; [exact Hst|].
  cbn [PostBuilder.repeat_blocks]. rewrite gen_bind_run.
  destruct (add_random_text_block_geometry self g) as (block & -> & Hx & Hy).
  apply IH. by apply add_block_stacked.
Qed.

Lemma run_call_stacked c (self : PostBuilder.t) g :
  default_layout c ->
  stacked (PostData.blocks self) ->
  stacked (PostData.blocks (fst (PostBuilder.run_call c self g))).
Proof.
  intros Hc Hst.
  destruct c as [a|s| | |cid|oid|b|s [y|]|n|u [y|]|hs|u];
    try contradiction; try exact Hst.
  - cbn [PostBuilder.run_call]. unfold PostBuilder.with_random_title.
    rewrite gen_bind_run. exact Hst.
  - cbn [PostBuilder.run_call].
    destruct (add_text_block_run s self g) as (block & -> & Hx & Hy).
    by apply add_block_stacked.
  - cbn [PostBuilder.run_call]. by apply repeat_blocks_stacked.
  - cbn [PostBuilder.run_call].
    destruct (add_image_block_run u self g) as (block & -> & Hx & Hy).
    by apply add_block_stacked.
Qed.

Lemma run_calls_stacked calls (self : PostBuilder.t) g :
  Forall (fun c => default_layout c) calls ->
  stacked (PostData.blocks self) ->
  stacked (PostData.blocks (fst (PostBuilder.run_calls calls self g))).
Proof.
  intros Hcalls. revert self g.
  induction Hcalls as [|c calls Hc _ IH]; intros self g Hst; [exact Hst|].
  cbn [PostBuilder.run_calls]. rewrite gen_bind_run.
  apply IH. by apply run_call_stacked.
Qed.

(** X21: when every block is added without an explicit position (and none
    through [add_block]), the built post is a single column: block [i] has
    [x = 0] and [y = 100 * i], including the block [build()] adds to an empty
    post. *)
Theorem default_positions_stack (calls : list PostBuilder.call) g :
  Forall (fun c => default_layout c) calls ->
  let draft := PostBuilder.run_calls calls PostBuilder.init g in
  let post := fst (PostBuilder.build (fst draft) (snd draft)) in
  forall (i : nat) (b : value),
    PostData.blocks post !! i = Some b ->
    get_at ["x"] b = Some (VInt 0)
    /\ get_at ["y"] b = Some (VInt (Z.of_nat i * 100)).
Proof.
  intros Hcalls. cbv zeta.
  pose proof (run_calls_stacked calls PostBuilder.init g Hcalls) as Hst.
  assert (stacked (PostData.blocks PostBuilder.init)) as Hinit.
  { intros i b Hi. change (PostData.blocks PostBuilder.init) with (@nil value) in Hi.
    by rewrite lookup_nil in Hi. }
  specialize (Hst Hinit). clear Hinit.
  rewrite build_eq. cbv zeta.
  set (draft := PostBuilder.run_calls calls PostBuilder.init g) in *.
  assert (forall t, stacked (PostData.blocks (PostBuilder.with_title t (fst draft))))
    as Htitled by (intros t; exact Hst).
  destruct (String.eqb (PostData.title (fst draft)) "").
  - destruct (list_set _); [apply Htitled|].
    destruct (add_random_text_block_geometry
                (PostBuilder.with_title (rstrip "." (fst (sentence 6 (snd draft))))
                   (fst draft))
                (snd (sentence 6 (snd draft)))) as (block & -> & Hx & Hy).
    apply add_block_stacked; auto.
  - destruct (list_set _); [exact Hst|].
    destruct (add_random_text_block_geometry (fst draft) (snd draft))
      as (block & -> & Hx & Hy).
    by apply add_block_stacked.
Qed.

End post_builder_more.

Section post_builder_witness.
Import Py DataBuilder.

Lemma default_positions_stack_witness :
  let calls := [PostBuilder.AddTextBlock "intro" None;
                PostBuilder.AddImageBlock "https://example.org/a.png" None;
                PostBuilder.AddRandomTextBlocks 2] in
  let draft := PostBuilder.run_calls (H := Demo.fixed_faker) calls
                 PostBuilder.init 0%nat in
  let post := fst (PostBuilder.build (fst draft) (snd draft)) in
  exists b, PostData.blocks post !! 3%nat = Some b
            /\ get_at ["y"] b = Some (VInt 300).
Proof.
  intros calls draft post. eexists. split; [reflexivity|].
  apply (default_positions_stack (F := Demo.fixed_faker) calls 0%nat
           ltac:(repeat constructor) 3%nat).
  reflexivity.
Defined.

End post_builder_witness.

Section post_builder_laws.
Import Py DataBuilder.
Context `{F : Faker}.

(** A draft that has a title and a block is returned as it is. *)
Lemma build_complete (self : PostBuilder.t) g :
  PostData.title self <> "" ->
  PostData.blocks self <> [] ->
  PostBuilder.build self g = (self, g).
Proof.
  intros Ht Hb. apply String.eqb_neq in Ht.
  unfold PostBuilder.build, bind, ret. rewrite Ht.
  by destruct (PostData.blocks self).
Qed.

(** X22: with a generator that keeps the library's promises, [build()] is
    idempotent: building again returns the same post and draws nothing more
    from the generator. *)
Theorem post_build_idempotent `{!FakerContract F} (self : PostBuilder.t) g :
  let out := PostBuilder.build self g in
  PostBuilder.build (fst out) (snd out) = out.
Proof.
  cbv zeta.
  destruct (build_run self g) as (_ & Hkeep & Hfill & Hsame & Hadd).
  cbv zeta in Hkeep, Hfill, Hsame, Hadd.
  set (out := PostBuilder.build self g) in *.
  assert (PostData.title (fst out) <> "") as Htitle.
  { destruct (String.eqb (PostData.title self) "") eqn:Ht.
    - apply String.eqb_eq in Ht. rewrite (Hfill Ht). apply sentence_has_word.
    - apply String.eqb_neq in Ht. by rewrite (Hkeep Ht). }
  assert (PostData.blocks (fst out) <> []) as Hblocks.
  { destruct (PostData.blocks self) as [|b0 bs] eqn:Hb.
    - destruct (Hadd eq_refl) as (block & -> & _). discriminate.
    - rewrite Hsame by discriminate. discriminate. }
  rewrite (build_complete (fst out) (snd out) Htitle Hblocks). by destruct out.
Qed.

(** X23: switching the post type does not clear ids set earlier: after
    [as_community(c)] a later [as_personal()] or [as_repost(o)] keeps
    [community_id], so the serialized post still carries [communityId]
    although its type is no longer COMMUNITY. *)
Theorem type_switch_keeps_community_id (self : PostBuilder.t) (c o : Z) :
  c <> 0 ->
  let personal := PostBuilder.as_personal (PostBuilder.as_community c self) in
  let repost := PostBuilder.as_repost o (PostBuilder.as_community c self) in
  (dict_get "type" (PostData.to_dict personal) = Some (VStr "PERSONAL")
   /\ dict_get "communityId" (PostData.to_dict personal) = Some (VInt c))
  /\ (dict_get "type" (PostData.to_dict repost) = Some (VStr "REPOST")
      /\ dict_get "communityId" (PostData.to_dict repost) = Some (VInt c)).
Proof.
  intros Hc. apply Z.eqb_neq in Hc. cbv zeta.
  rewrite !to_dict_community.
  split; split; try apply to_dict_required; simpl; by rewrite Hc.
Qed.

(** The author id a chain of calls leaves: that of the last [with_author],
    or the one before the chain. *)
Local Abbreviation last_author calls start :=
  (fold_left
     (fun a c => match c with PostBuilder.WithAuthor x => x | _ => a end)
     calls start).

Lemma run_call_author c (self : PostBuilder.t) g :
  PostData.author_id (fst (PostBuilder.run_call c self g))
  = match c with
    | PostBuilder.WithAuthor x => x
    | _ => PostData.author_id self
    end.
Proof.
  destruct c as [a|s| | |cid|oid|b|s y|n|u y|hs|u]; cbn [PostBuilder.run_call];
    try reflexivity.
  - unfold PostBuilder.with_random_title. by rewrite gen_bind_run.
  - unfold PostBuilder.add_text_block. by rewrite gen_bind_run.
  - unfold PostBuilder.add_random_text_blocks.
    by destruct (repeat_blocks_run (Z.to_nat n) self g) as (new & _ & _ & _ & _ & ->).
  - unfold PostBuilder.add_image_block. by rewrite gen_bind_run.
Qed.

(** X24: the builders validate nothing about the author: the built post has
    the id of the last [with_author] call of the chain, and 0, the builder's
    default, when the chain has none, whatever else was configured. *)
Theorem author_is_last_with_author (calls : list PostBuilder.call) g :
  let draft := PostBuilder.run_calls calls PostBuilder.init g in
  let post := fst (PostBuilder.build (fst draft) (snd draft)) in
  PostData.author_id post = last_author calls 0
  /\ ((forall x, ~ In (PostBuilder.WithAuthor x) calls) ->
      PostData.author_id post = 0).
Proof.
  cbv zeta.
  assert (forall self g0,
             PostData.author_id (fst (PostBuilder.run_calls calls self g0))
             = last_author calls (PostData.author_id self)) as Hrun.
  { induction calls as [|c calls IH]; intros self g0; [reflexivity|].
    cbn [PostBuilder.run_calls fold_left]. rewrite gen_bind_run, IH.
    by rewrite run_call_author. }
  destruct (build_run (fst (PostBuilder.run_calls calls PostBuilder.init g))
              (snd (PostBuilder.run_calls calls PostBuilder.init g)))
    as (Ha & _).
  cbv zeta in Ha. rewrite Ha, Hrun. split; [reflexivity|].
  intros Hnone. change (PostData.author_id PostBuilder.init) with 0.
  clear Hrun Ha. generalize 0 as start.
  induction calls as [|c calls IH]; intros start; [reflexivity|].
  cbn [fold_left]. destruct c; try (apply IH; intros x Hx; apply (Hnone x); by right).
  exfalso. apply (Hnone author_id). by left.
Qed.

End post_builder_laws.

Section post_builder_laws_witness.
Import Py DataBuilder.

Lemma post_build_idempotent_witness :
  let out := PostBuilder.build (H := Demo.fixed_faker) PostBuilder.init 0%nat in
  PostBuilder.build (fst out) (snd out) = out
  /\ PostData.title (fst out) = "Quick brown fox jumps over dogs".
Proof.
  intros out. split; [|reflexivity].
  apply (post_build_idempotent (F := Demo.fixed_faker)
           (FakerContract0 := fixed_faker_contract) PostBuilder.init 0%nat).
Defined.

Lemma type_switch_keeps_community_id_witness :
  dict_get "communityId"
    (PostData.to_dict
       (PostBuilder.as_personal (PostBuilder.as_community 5 PostBuilder.init)))
  = Some (VInt 5).
Proof.
  apply (type_switch_keeps_community_id PostBuilder.init 5 0). lia.
Defined.

End post_builder_laws_witness.

Section user_and_comment.
Import Py DataBuilder.
Context `{P : FakerProfile}.

(** [UserBuilder.build()] as a function of the draft and the generator
    state. *)
Lemma user_build_eq (self : UserBuilder.t) g :
  UserBuilder.build self g
  = let no_email := String.eqb (UserData.email self) "" in
    let self1 :=
      if no_email then UserBuilder.with_email (fst (email g)) self else self in
    let g1 := if no_email then snd (email g) else g in
    let no_name := String.eqb (UserData.name self1) "" in
    (if no_name then UserBuilder.with_name (fst (name g1)) self1 else self1,
     if no_name then snd (name g1) else g1).
Proof.
  unfold UserBuilder.build, bind, ret. cbv zeta.
  destruct (String.eqb (UserData.email self) "").
  - destruct (email g) as [e g1]. cbn [fst snd].
    destruct (String.eqb (UserData.name (UserBuilder.with_email e self)) "");
      [by destruct (name g1) | reflexivity].
  - destruct (String.eqb (UserData.name self) "");
      [by destruct (name g) | reflexivity].
Qed.

(** X25: with generators that keep the libraries' promises,
    [UserBuilder.build()] returns a user whose email and name are not empty:
    values the caller gave are kept, empty ones are generated; password, bio
    and gender are never touched, and with both email and name given nothing
    is drawn from the generator. *)
Theorem user_build_fills_email_and_name `{!FakerProfileContract F P}
    (self : UserBuilder.t) g :
  let user := fst (UserBuilder.build self g) in
  UserData.email user <> ""
  /\ UserData.name user <> ""
  /\ UserData.password user = UserData.password self
  /\ UserData.bio user = UserData.bio self
  /\ UserData.gender user = UserData.gender self
  /\ (UserData.email self <> "" -> UserData.email user = UserData.email self)
  /\ (UserData.name self <> "" -> UserData.name user = UserData.name self)
  /\ (UserData.email self <> "" -> UserData.name self <> "" ->
      UserBuilder.build self g = (self, g)).
Proof.
  cbv zeta. rewrite user_build_eq. cbv zeta.
  destruct (String.eqb (UserData.email self) "") eqn:He;
    [apply String.eqb_eq in He | apply String.eqb_neq in He];
    cbn [UserBuilder.with_email UserData.name];
    (destruct (String.eqb (UserData.name self) "") eqn:Hn;
      [apply String.eqb_eq in Hn | apply String.eqb_neq in Hn]);
    cbn [fst UserBuilder.with_email UserBuilder.with_name UserData.email
         UserData.name UserData.password UserData.bio UserData.gender];
    repeat split; try congruence;
    auto using email_nonempty, name_nonempty.
Qed.

(** X26: with generators that keep the libraries' promises,
    [create_quick_comment(post_id, author_id)] gives a top-level comment on
    that post by that author with non-empty content, and its serialized form
    has exactly the four keys postId, commenterId, content and type. *)
Theorem create_quick_comment_shape `{!FakerProfileContract F P}
    (post_id author_id : Z) g :
  let comment := fst (create_quick_comment post_id author_id g) in
  CommentData.content comment <> ""
  /\ CommentData.to_dict comment
     = [("postId", VInt post_id); ("commenterId", VInt author_id);
        ("content", VStr (CommentData.content comment));
        ("type", VStr "POST")].
Proof.
  cbv zeta. unfold create_quick_comment, CommentBuilder.with_random_content,
    CommentBuilder.build.
  rewrite !gen_bind_run. unfold ret.
  cbn [fst snd CommentBuilder.with_content CommentData.content].
  set (n := fst (randint 5 15 g)). set (g1 := snd (randint 5 15 g)).
  pose proof (sentence_nonempty n g1) as Hs.
  apply String.eqb_neq in Hs. rewrite !Hs. apply String.eqb_neq in Hs.
  cbn. auto.
Qed.

End user_and_comment.

Section user_and_comment_witness.
Import Py DataBuilder.

Lemma fixed_profile_contract :
  FakerProfileContract Demo.fixed_faker Demo.fixed_profile.
Proof.
  split; intros; simpl; try discriminate. lia.
Defined.

Lemma user_build_fills_email_and_name_witness :
  let user := fst (UserBuilder.build (P := Demo.fixed_profile)
                     (UserBuilder.with_name "Ann" UserBuilder.init) 0%nat) in
  UserData.email user = "jane.doe@example.org"
  /\ UserData.name user = "Ann"
  /\ UserData.password user = "Test@12345".
Proof.
  intros user. split; [reflexivity|]. split; [reflexivity|].
  apply (user_build_fills_email_and_name (P := Demo.fixed_profile)
           (FakerProfileContract0 := fixed_profile_contract)
           (UserBuilder.with_name "Ann" UserBuilder.init) 0%nat).
Defined.

Lemma create_quick_comment_shape_witness :
  CommentData.to_dict
    (fst (create_quick_comment (P := Demo.fixed_profile) 3 7 0%nat))
  = [("postId", VInt 3); ("commenterId", VInt 7);
     ("content", VStr "Quick brown fox jumps over dogs.");
     ("type", VStr "POST")].
Proof.
  apply (create_quick_comment_shape (P := Demo.fixed_profile)
           (FakerProfileContract0 := fixed_profile_contract) 3 7 0%nat).
Defined.

End user_and_comment_witness.
